(** * py-ipv8: lazy dispatch wrappers, the EZPack codec and identity formats

    A shallow embedding of [ipv8/lazy_community.py] and
    [ipv8/attestation/identity_formats.py].

    Python values are modelled as follows: [bytes] is a list of bytes,
    [str] is a string, a raised exception is the [Raise] constructor of
    [result], and the calls the code makes to its collaborators (the
    serializer, the two signature backends, the wrapped handler) are
    recorded, in program order, in a trace of [Event]s. *)

From Stdlib Require Import ZArith List Lia Bool.
From Stdlib Require Import Strings.String Strings.Ascii Strings.Byte.
From stdpp Require Import gmap strings list.
Import ListNotations.

Open Scope Z_scope.

(** ** Python values *)

Abbreviation bytes := (list byte).

(** Exceptions raised by the modelled code.  [ExternalError] stands for an
    exception raised inside a collaborator (for instance the serializer's
    own packing error or a key decoding error). *)
Inductive Exn : Type :=
| PacketDecodingError (msg : string)
| RuntimeError (msg : string)
| NotImplementedError
| ValueError
| IndexError
| AttributeError
| ExternalError (name : string).

(** The builtin exception hierarchy the two modules rely on:
    [class PacketDecodingError(RuntimeError)], and Python's own
    [NotImplementedError], which derives from [RuntimeError]. *)
Inductive ExnClass : Type :=
| cls_PacketDecodingError
| cls_RuntimeError
| cls_NotImplementedError
| cls_ValueError
| cls_IndexError
| cls_AttributeError
| cls_External.

Definition exn_isinstance (e : Exn) (c : ExnClass) : bool :=
  match e, c with
  | PacketDecodingError _, (cls_PacketDecodingError | cls_RuntimeError) => true
  | RuntimeError _, cls_RuntimeError => true
  | NotImplementedError, (cls_NotImplementedError | cls_RuntimeError) => true
  | ValueError, cls_ValueError => true
  | IndexError, cls_IndexError => true
  | AttributeError, cls_AttributeError => true
  | ExternalError _, cls_External => true
  | _, _ => false
  end.

Inductive result (A : Type) : Type :=
| Ok (a : A)
| Raise (e : Exn).
Arguments Ok {A} a.
Arguments Raise {A} e.

(** ** Python slicing and [startswith] on byte strings *)

(** An index of a slice is brought into [0 .. len]: a negative index counts
    from the end and is cut at 0, a non-negative one is cut at [len]. *)
Definition clamp_index (len i : Z) : Z :=
  if i <? 0 then Z.max (len + i) 0 else Z.min i len.

(** [py_slice lo hi l] is [l[lo:hi]]; [None] is an omitted bound. *)
Definition py_slice {A : Type} (lo hi : option Z) (l : list A) : list A :=
  let len := Z.of_nat (length l) in
  let start := match lo with Some i => clamp_index len i | None => 0 end in
  let stop := match hi with Some j => clamp_index len j | None => len end in
  firstn (Z.to_nat (stop - start)) (skipn (Z.to_nat start) l).

(** [startswith pre s] is [s.startswith(pre)]. *)
Fixpoint startswith (pre s : bytes) : bool :=
  match pre, s with
  | [], _ => true
  | _ :: _, [] => false
  | p :: pre', c :: s' => Byte.eqb p c && startswith pre' s'
  end.

(** ** identity_formats.py *)

Module identity_formats.

Record IdentityFormat : Type := {
  algorithm : string;
  key_size : Z;
  hash : string
}.

(** The [FORMATS] registry. *)
Definition FORMATS : gmap string IdentityFormat :=
  <["id_metadata" :=
      {| algorithm := "bonehexact"; key_size := 32; hash := "sha256_4" |}]>
  (<["id_metadata_big" :=
      {| algorithm := "bonehexact"; key_size := 64; hash := "sha256" |}]>
  (<["id_metadata_huge" :=
      {| algorithm := "bonehexact"; key_size := 96; hash := "sha512" |}]>
   ∅)).

(** The one attribute [IdentityAlgorithm.__init__] sets on [self];
    [None] is an attribute that has not been assigned yet. *)
Record IdentityAlgorithm : Type := {
  id_format : option string
}.

Definition blank : IdentityAlgorithm := {| id_format := None |}.

(** [__init__(self, id_format)]: the attribute is stored first, the
    membership test on [FORMATS] comes second.  The first component is
    [self] after the call, the second is [None]-on-return or the
    exception. *)
Definition __init__ (self : IdentityAlgorithm) (name : string)
  : IdentityAlgorithm * result unit :=
  let self' := {| id_format := Some name |} in
  match FORMATS !! name with
  | None =>
      (self', Raise (RuntimeError "Tried to initialize with illegal identity format"))
  | Some _ => (self', Ok tt)
  end.

(** Instantiating a concrete subclass that inherits [__init__]: the
    fresh object reaches the caller only when [__init__] returns. *)
Definition construct (name : string) : result IdentityAlgorithm :=
  match __init__ blank name with
  | (self', Ok _) => Ok self'
  | (_, Raise e) => Raise e
  end.

Module Attestation.

(** [Attestation.unserialize(cls, s, id_format)]: the body is a single
    [raise NotImplementedError()].  The arguments may be any Python
    objects, hence the two type parameters. *)
Definition unserialize {S F T : Type} (s : S) (id_format : F) : result T :=
  Raise NotImplementedError.

End Attestation.

End identity_formats.

(** ** lazy_community.py *)

Module lazy_community.

(** *** Data of the collaborators *)

(** Payload classes, as they are passed to the decorators and to the
    serializer.  Only the two header classes are named by this module. *)
Inductive PayloadClass : Type :=
| BinMemberAuthenticationPayload
| GlobalTimeDistributionPayload
| OtherPayload (name : string).

Definition __name__ (c : PayloadClass) : string :=
  match c with
  | BinMemberAuthenticationPayload => "BinMemberAuthenticationPayload"
  | GlobalTimeDistributionPayload => "GlobalTimeDistributionPayload"
  | OtherPayload name => name
  end.

(** The auth header object: its one attribute is [public_key_bin]. *)
Record AuthHeader : Type := mkAuth { public_key_bin : bytes }.

(** Payload objects built by the serializer. *)
Inductive Payload : Type :=
| PAuth (auth : AuthHeader)
| PGlobalTime (global_time : Z)
| POther (cls : string) (body : bytes).

(** What [to_pack_list()] returns: tuples of a format name and values. *)
Inductive PackValue : Type :=
| VInt (n : Z)
| VBytes (b : bytes).

Abbreviation FormatList := (list (string * list PackValue)).

Abbreviation Address := (string * Z)%type.

Record Peer : Type := mkPeer {
  peer_key : bytes;
  peer_address : Address
}.

(** Private key classes.  [Subclass name base] is a class declared as
    [class name(base)]. *)
Inductive KeyClass : Type :=
| LibNaCLSK
| M2CryptoSK
| Subclass (name : string) (base : KeyClass).

Fixpoint KeyClass_eqb (a b : KeyClass) : bool :=
  match a, b with
  | LibNaCLSK, LibNaCLSK => true
  | M2CryptoSK, M2CryptoSK => true
  | Subclass n x, Subclass m y => String.eqb n m && KeyClass_eqb x y
  | _, _ => false
  end.

(** [issubclass c base]. *)
Fixpoint issubclass (c base : KeyClass) : bool :=
  KeyClass_eqb c base ||
  match c with
  | Subclass _ parent => issubclass parent base
  | _ => false
  end.

(** A private key object.  [key_seed] is [key.key.seed] and [veri_vk] is
    [key.veri.vk]; the code reads them on the [LibNaCLSK] branch only. *)
Record PrivateKey : Type := {
  key_type : KeyClass;
  key_seed : bytes;
  veri_vk : bytes;
  key_material : bytes
}.

(** [self.my_peer]: [public_key_key_to_bin] is the value of
    [self.my_peer.public_key.key_to_bin()]. *)
Record MyPeer : Type := {
  key : PrivateKey;
  public_key_key_to_bin : bytes
}.

(** [self.serializer]. *)
Record Serializer : Type := {
  pack_multiple : FormatList -> result (bytes * Z);
  unpack_to_serializables :
    list PayloadClass -> bytes -> result (list Payload * bytes);
  ez_unpack_serializables :
    list PayloadClass -> bytes -> result (list Payload)
}.

(** [default_eccrypto].  Decoding a key may raise (a malformed key); the
    three other operations are taken to return: an invalid signature is
    reported through the boolean. *)
Record ECCrypto : Type := {
  PublicKey : Type;
  key_from_public_bin : bytes -> result PublicKey;
  get_signature_length : PublicKey -> Z;
  is_valid_signature : PublicKey -> bytes -> bytes -> bool;
  create_signature : PrivateKey -> bytes -> bytes
}.

(** [rust_ipv8_in_python.borrowed_bundler]: [borrowed_create_signature]
    returns the packet to send, [borrowed_verify_signature] the validity
    flag and the remainder. *)
Record Bundler : Type := {
  borrowed_create_signature : bytes -> bytes -> bytes -> bytes;
  borrowed_verify_signature : bytes -> bytes -> bool * bytes
}.

(** The overlay instance, [self]. *)
Record Overlay : Type := {
  serializer : Serializer;
  my_peer : MyPeer;
  _prefix : bytes
}.

(** First positional argument of a handler: a [Peer] for the
    authenticated wrappers, the source address for the unsigned ones. *)
Inductive Sender : Type :=
| FromPeer (p : Peer)
| FromAddress (a : Address).

(** The remaining positional arguments of a handler. *)
Inductive Arg : Type :=
| APayload (p : Payload)
| AData (data : bytes).

(** *** Calls to collaborators, in program order *)

Inductive Event : Type :=
| call_unpack_to_serializables (classes : list PayloadClass) (data : bytes)
| call_ez_unpack_serializables (classes : list PayloadClass) (data : bytes)
| call_pack_multiple (format_list : FormatList)
| call_borrowed_verify_signature (pk data : bytes)
| call_borrowed_create_signature (seed vk packet : bytes)
| call_key_from_public_bin (pk : bytes)
| call_get_signature_length (pk : bytes)
| call_is_valid_signature (pk msg signature : bytes)
| call_create_signature (k : PrivateKey) (packet : bytes)
| call_handler (who : Sender) (args : list Arg).

(** A computation: the calls it made and its outcome. *)
Definition M (A : Type) : Type := (list Event * result A)%type.

Definition ret {A} (a : A) : M A := ([], Ok a).

Definition raise {A} (e : Exn) : M A := ([], Raise e).

Definition bind {A B} (m : M A) (k : A -> M B) : M B :=
  match m with
  | (t, Ok a) => let (t', r) := k a in (t ++ t', r)
  | (t, Raise e) => (t, Raise e)
  end.

(** A call to a collaborator: it is logged, then its outcome is the
    outcome of the computation. *)
Definition call {A} (ev : Event) (r : result A) : M A := ([ev], r).

Definition trace {A} (m : M A) : list Event := fst m.
Definition outcome {A} (m : M A) : result A := snd m.

Declare Scope m_scope.
Delimit Scope m_scope with m.
Notation "x <- c ;; k" := (bind c (fun x => k))
  (at level 100, c at next level, right associativity) : m_scope.
Open Scope m_scope.

(** *** Observations on traces *)

Definition is_handler_call (ev : Event) : bool :=
  match ev with call_handler _ _ => true | _ => false end.

Definition handler_calls (t : list Event) : list Event :=
  List.filter is_handler_call t.

(** Object construction from packet bytes for classes other than the
    auth header. *)
Definition is_payload_deserialization (ev : Event) : bool :=
  match ev with call_ez_unpack_serializables _ _ => true | _ => false end.

Inductive Backend : Type := Accelerated | Default.

(** The signature backend a call belongs to, if any. *)
Definition backend_of (ev : Event) : option Backend :=
  match ev with
  | call_borrowed_verify_signature _ _ => Some Accelerated
  | call_borrowed_create_signature _ _ _ => Some Accelerated
  | call_key_from_public_bin _ => Some Default
  | call_get_signature_length _ => Some Default
  | call_is_valid_signature _ _ _ => Some Default
  | call_create_signature _ _ => Some Default
  | _ => None
  end.

Definition uses_backend (b : Backend) (t : list Event) : bool :=
  existsb (fun ev => match backend_of ev, b with
                     | Some Accelerated, Accelerated => true
                     | Some Default, Default => true
                     | _, _ => false
                     end) t.

(** *** Small pieces of Python *)

(** [str(names)] for a list of class names: every name is shown between
    single quotes. *)
Definition py_str_list (names : list string) : string :=
  ("[" ++ String.concat ", " (List.map (fun n => "'" ++ n ++ "'") names) ++ "]")%string.

Definition invalid_signature_message (shown : string) : string :=
  ("Incoming packet " ++ shown ++ " has an invalid signature")%string.

(** Modelled from the spec: [util.cast_to_bin] is not part of the two
    modules; the message id is one byte of the packet, so
    [cast_to_bin(chr(msg_num))] is the one-byte string holding it. *)
Definition cast_to_bin_chr (msg_num : byte) : bytes := [msg_num].

Definition LibNaCLPK_marker : bytes := list_byte_of_string "LibNaCLPK:".

Definition len (b : bytes) : Z := Z.of_nat (length b).

(** *** The decorators and [EZPackOverlay] *)

Section Code.

(** The module-level collaborators: the default signature backend, the
    accelerated (rust) bundler and the [to_pack_list] method of payload
    objects. *)
Variable default_eccrypto : ECCrypto.
Variable borrowed_bundler : Bundler.
Variable to_pack_list : Payload -> FormatList.

(** What a decorator wraps: a callable taking [self], the sender and
    the unpacked arguments. *)
Definition Callee (R : Type) : Type :=
  Overlay -> Sender -> list Arg -> M R.

(** A message handler whose invocations are observed in the trace. *)
Definition handler {R} (h : Overlay -> Sender -> list Arg -> result R)
  : Callee R :=
  fun self who args => call (call_handler who args) (h self who args).

(** [auth, remainder = self.serializer.unpack_to_serializables(
      [BinMemberAuthenticationPayload, ], data[23:])]:
    the returned sequence must hold one object and the remainder, and
    the object must carry [public_key_bin]. *)
Definition unpack_auth (self : Overlay) (data : bytes)
  : M (AuthHeader * bytes) :=
  let rest := py_slice (Some 23) None data in
  r <- call (call_unpack_to_serializables [BinMemberAuthenticationPayload] rest)
            (unpack_to_serializables (serializer self)
               [BinMemberAuthenticationPayload] rest) ;;
  match fst r with
  | [PAuth auth] => ret (auth, snd r)
  | [_] => raise AttributeError
  | _ => raise ValueError
  end.

(** [EZPackOverlay._verify_signature(self, auth, data)] *)
Definition _verify_signature (self : Overlay) (auth : AuthHeader)
  (data : bytes) : M (bool * bytes) :=
  if startswith LibNaCLPK_marker (public_key_bin auth) then
    call (call_borrowed_verify_signature (public_key_bin auth) data)
         (Ok (borrowed_verify_signature borrowed_bundler
                (public_key_bin auth) data))
  else
    let ec := default_eccrypto in
    public_key <- call (call_key_from_public_bin (public_key_bin auth))
                       (key_from_public_bin ec (public_key_bin auth)) ;;
    signature_length <- call (call_get_signature_length (public_key_bin auth))
                             (Ok (get_signature_length ec public_key)) ;;
    let remainder :=
      py_slice (Some (23 + 2 + len (public_key_bin auth)))
               (Some (- signature_length)) data in
    let signature := py_slice (Some (- signature_length)) None data in
    let signed := py_slice None (Some (- signature_length)) data in
    valid <- call (call_is_valid_signature (public_key_bin auth) signed signature)
                  (Ok (is_valid_signature ec public_key signed signature)) ;;
    ret (valid, remainder).

(** Modelled from the spec: the [Peer] class is not part of the two
    modules.  [Peer(public_key_bytes, address)] builds the peer identity
    from the key bytes and the address: the key bytes are decoded by
    [default_eccrypto.key_from_public_bin], whose exception is the
    constructor's, and the peer holds the key and the address. *)
Definition Peer__init__ (key_bin : bytes) (address : Address) : M Peer :=
  decoded <- call (call_key_from_public_bin key_bin)
                  (key_from_public_bin default_eccrypto key_bin) ;;
  ret (mkPeer key_bin address).

(** [wrapper(self, source_address, data)] of [lazy_wrapper], for the decorator
    arguments [payloads] and the decorated [func] *)
Definition lazy_wrapper {R} (payloads : list PayloadClass)
  (func : Callee R) (self : Overlay) (source_address : Address)
  (data : bytes) : M R :=
  (* UNPACK *)
  a <- unpack_auth self data ;;
  let auth := fst a in
  v <- _verify_signature self auth data ;;
  let signature_valid := fst v in
  let remainder := snd v in
  unpacked <- call (call_ez_unpack_serializables payloads remainder)
                   (ez_unpack_serializables (serializer self) payloads remainder) ;;
  (* ASSERT *)
  if negb signature_valid then
    raise (PacketDecodingError
             (invalid_signature_message
                (py_str_list (List.map __name__ payloads))))
  else
    (* PRODUCE *)
    peer <- Peer__init__ (public_key_bin auth) source_address ;;
    func self (FromPeer peer) (List.map APayload unpacked).

(** [wrapper(self, source_address, data)] of [lazy_wrapper_wd], for the decorator
    arguments [payloads] and the decorated [func] *)
Definition lazy_wrapper_wd {R} (payloads : list PayloadClass)
  (func : Callee R) (self : Overlay) (source_address : Address)
  (data : bytes) : M R :=
  (* UNPACK *)
  a <- unpack_auth self data ;;
  let auth := fst a in
  v <- _verify_signature self auth data ;;
  let signature_valid := fst v in
  let remainder := snd v in
  unpacked <- call (call_ez_unpack_serializables payloads remainder)
                   (ez_unpack_serializables (serializer self) payloads remainder) ;;
  (* ASSERT *)
  if negb signature_valid then
    raise (PacketDecodingError
             (invalid_signature_message
                (py_str_list (List.map __name__ payloads))))
  else
    (* PRODUCE *)
    let output := List.map APayload unpacked ++ [AData data] in
    peer <- Peer__init__ (public_key_bin auth) source_address ;;
    func self (FromPeer peer) output.

(** [wrapper(self, source_address, data)] of [lazy_wrapper_unsigned], for the decorator
    arguments [payloads] and the decorated [func] *)
Definition lazy_wrapper_unsigned {R} (payloads : list PayloadClass)
  (func : Callee R) (self : Overlay) (source_address : Address)
  (data : bytes) : M R :=
  let rest := py_slice (Some 23) None data in
  unpacked <- call (call_ez_unpack_serializables payloads rest)
                   (ez_unpack_serializables (serializer self) payloads rest) ;;
  func self (FromAddress source_address) (List.map APayload unpacked).

(** [wrapper(self, source_address, data)] of [lazy_wrapper_unsigned_wd], for the decorator
    arguments [payloads] and the decorated [func]:
    the inner function, decorated with [lazy_wrapper_unsigned], appends
    the raw data and calls [func]. *)
Definition lazy_wrapper_unsigned_wd {R} (payloads : list PayloadClass)
  (func : Callee R) (self : Overlay) (source_address : Address)
  (data : bytes) : M R :=
  let inner_wrapper : Callee R :=
    fun inner_self inner_source_address pyls =>
      let combo := pyls ++ [AData data] in
      func inner_self inner_source_address combo in
  lazy_wrapper_unsigned payloads inner_wrapper self source_address data.

(** The loop of [_ez_pack]:
    [for format_list in format_list_list:
       packet += self.serializer.pack_multiple(format_list)[0]] *)
Fixpoint pack_groups (self : Overlay) (format_list_list : list FormatList)
  (packet : bytes) : M bytes :=
  match format_list_list with
  | [] => ret packet
  | format_list :: rest =>
      packed <- call (call_pack_multiple format_list)
                     (pack_multiple (serializer self) format_list) ;;
      pack_groups self rest (packet ++ fst packed)
  end.

(** [EZPackOverlay._ez_pack(self, prefix, msg_num, format_list_list, sig)] *)
Definition _ez_pack (self : Overlay) (prefix : bytes) (msg_num : byte)
  (format_list_list : list FormatList) (sig : bool) : M bytes :=
  packet <- pack_groups self format_list_list
                        (prefix ++ cast_to_bin_chr msg_num) ;;
  if sig then
    if KeyClass_eqb (key_type (key (my_peer self))) LibNaCLSK then
      let key := veri_vk (key (my_peer self)) in
      let seed := key_seed (lazy_community.key (my_peer self)) in
      call (call_borrowed_create_signature seed key packet)
           (Ok (borrowed_create_signature borrowed_bundler seed key packet))
    else
      signature <- call (call_create_signature (key (my_peer self)) packet)
                        (Ok (create_signature default_eccrypto
                               (key (my_peer self)) packet)) ;;
      ret (packet ++ signature)
  else
    ret packet.

(** [EZPackOverlay.ezr_pack(self, msg_num, *payloads, **kwargs)];
    [kwargs] holds the keyword arguments, [sig] defaulting to [True]. *)
Definition ezr_pack (self : Overlay) (msg_num : byte)
  (payloads : list Payload) (kwargs : gmap string bool) : M bytes :=
  let sig := default true (kwargs !! "sig"%string) in
  let format_list_list :=
    (if sig
     then [to_pack_list
             (PAuth (mkAuth (public_key_key_to_bin (my_peer self))))]
     else []) ++ List.map to_pack_list payloads in
  _ez_pack self (_prefix self) msg_num format_list_list sig.

(** [EZPackOverlay._ez_unpack_auth(self, payload_class, data)] *)
Definition _ez_unpack_auth (self : Overlay) (payload_class : PayloadClass)
  (data : bytes) : M (AuthHeader * Payload * Payload) :=
  (* UNPACK *)
  a <- unpack_auth self data ;;
  let auth := fst a in
  v <- _verify_signature self auth data ;;
  let signature_valid := fst v in
  let remainder := snd v in
  let format := [GlobalTimeDistributionPayload; payload_class] in
  unpacked <- call (call_ez_unpack_serializables format remainder)
                   (ez_unpack_serializables (serializer self) format remainder) ;;
  match unpacked with
  | [dist; payload] =>
      (* ASSERT *)
      if negb signature_valid then
        raise (PacketDecodingError
                 (invalid_signature_message (__name__ payload_class)))
      else
        (* PRODUCE *)
        ret (auth, dist, payload)
  | _ => raise ValueError
  end.

(** What [_ez_unpack_noauth] returns: the list of unpacked objects, or
    one object. *)
Inductive Unpacked : Type :=
| UList (objs : list Payload)
| UObject (obj : Payload).

(** [EZPackOverlay._ez_unpack_noauth(self, payload_class, data, global_time)] *)
Definition _ez_unpack_noauth (self : Overlay) (payload_class : PayloadClass)
  (data : bytes) (global_time : bool) : M Unpacked :=
  (* UNPACK *)
  let format := if global_time
                then [GlobalTimeDistributionPayload; payload_class]
                else [payload_class] in
  let rest := py_slice (Some 23) None data in
  unpacked <- call (call_ez_unpack_serializables format rest)
                   (ez_unpack_serializables (serializer self) format rest) ;;
  (* PRODUCE *)
  if global_time then ret (UList unpacked)
  else match unpacked with
       | first :: _ => ret (UObject first)
       | [] => raise IndexError
       end.

End Code.

End lazy_community.

(** ** A small concrete world

    A serializer, the two signature backends and a handler that can be
    evaluated, used to run the embedded code on concrete packets. *)

Module Sample.
Import lazy_community.

Definition byte_val (b : byte) : Z := Z.of_N (Byte.to_N b).

(** The auth header on the wire: two length bytes, then the key. *)
Definition unpack_header (data : bytes) : result (list Payload * bytes) :=
  match data with
  | hi :: lo :: rest =>
      let n := Z.to_nat (256 * byte_val hi + byte_val lo) in
      if (n <=? length rest)%nat
      then Ok ([PAuth (mkAuth (firstn n rest))], skipn n rest)
      else Raise (ExternalError "PackError")
  | _ => Raise (ExternalError "PackError")
  end.

(** Every other payload class takes one byte of the data. *)
Fixpoint unpack_each (classes : list PayloadClass) (data : bytes)
  : result (list Payload) :=
  match classes, data with
  | [], _ => Ok []
  | _ :: _, [] => Raise (ExternalError "PackError")
  | c :: classes', b :: data' =>
      match unpack_each classes' data' with
      | Ok objs =>
          Ok (match c with
              | GlobalTimeDistributionPayload => PGlobalTime (byte_val b)
              | _ => POther (__name__ c) [b]
              end :: objs)
      | Raise e => Raise e
      end
  end.

Definition pack_value (v : PackValue) : bytes :=
  match v with
  | VInt n => match Byte.of_N (Z.to_N n) with Some b => [b] | None => [] end
  | VBytes b => b
  end.

Definition pack_list (fl : FormatList) : result (bytes * Z) :=
  let out := List.concat (List.map (fun item => List.concat (List.map pack_value (snd item))) fl) in
  Ok (out, len out).

Definition sample_serializer : Serializer := {|
  pack_multiple := pack_list;
  unpack_to_serializables := fun classes data =>
    match classes with
    | [BinMemberAuthenticationPayload] => unpack_header data
    | _ => Raise (ExternalError "PackError")
    end;
  ez_unpack_serializables := unpack_each
|}.

Fixpoint bytes_eqb (a b : bytes) : bool :=
  match a, b with
  | [], [] => true
  | x :: a', y :: b' => Byte.eqb x y && bytes_eqb a' b'
  | _, _ => false
  end.

(** Default backend: two-byte signatures; a key is its own binary form
    and the signature of a message is [AA BB]. *)
Definition sample_eccrypto : ECCrypto := {|
  PublicKey := bytes;
  key_from_public_bin := fun pk =>
    match pk with
    | [] => Raise (ExternalError "KeyDecodingError")
    | _ => Ok pk
    end;
  get_signature_length := fun _ => 2;
  is_valid_signature := fun _ _ signature => bytes_eqb signature [xaa; xbb];
  create_signature := fun _ _ => [xaa; xbb]
|}.

(** Accelerated backend: one-byte signatures [CC]. *)
Definition sample_bundler : Bundler := {|
  borrowed_create_signature := fun _ _ packet => packet ++ [xcc];
  borrowed_verify_signature := fun pk data =>
    (bytes_eqb (py_slice (Some (-1)) None data) [xcc],
     py_slice (Some (23 + 2 + len pk)) (Some (-1)) data)
|}.



Definition sample_to_pack_list (p : Payload) : FormatList :=
  match p with
  | PAuth auth => [("varlenH"%string, [VInt 0; VInt (len (public_key_bin auth));
                                        VBytes (public_key_bin auth)])]
  | PGlobalTime t => [("B"%string, [VInt t])]
  | POther _ body => [("raw"%string, [VBytes body])]
  end.

Definition m2_key : PrivateKey := {|
  key_type := M2CryptoSK; key_seed := []; veri_vk := []; key_material := [x01]
|}.

Definition nacl_key : PrivateKey := {|
  key_type := LibNaCLSK; key_seed := [x05]; veri_vk := [x06]; key_material := []
|}.

(** A key whose class is declared as [class MySK(LibNaCLSK)]. *)
Definition derived_key : PrivateKey := {|
  key_type := Subclass "MySK" LibNaCLSK;
  key_seed := [x05]; veri_vk := [x06]; key_material := []
|}.

Definition overlay_with (k : PrivateKey) : Overlay := {|
  serializer := sample_serializer;
  my_peer := {| key := k; public_key_key_to_bin := [x4b] |};
  _prefix := repeat x00 22
|}.

Definition sample_overlay : Overlay := overlay_with m2_key.

(** A handler that returns the number of arguments it was given. *)
Definition count_args (self : Overlay) (who : Sender) (args : list Arg)
  : result nat := Ok (length args).

Definition sender : Address := ("10.0.0.1"%string, 8090).

(** Packets: 22 bytes of prefix, the message id, the auth header for the
    one-byte key [4B], payload bytes, the signature. *)
Definition header : bytes := repeat x00 22 ++ [x01] ++ [x00; x01; x4b].

(** Two payload bytes and a valid signature. *)
Definition good_packet : bytes := header ++ [x07; x08] ++ [xaa; xbb].

(** Two payload bytes and a corrupted signature. *)
Definition tampered_packet : bytes := header ++ [x07; x08] ++ [xaa; x00].

(** One payload byte only, and a corrupted signature. *)
Definition short_tampered_packet : bytes := header ++ [x07] ++ [xaa; x00].

(** A packet of the accelerated backend: the key is the marker followed
    by [4B], the signature is [CC]. *)
Definition nacl_key_bin : bytes := LibNaCLPK_marker ++ [x4b].

Definition nacl_packet : bytes :=
  repeat x00 22 ++ [x01] ++ [x00; x0b] ++ nacl_key_bin ++ [x07; x08] ++ [xcc].

Definition two_payloads : list PayloadClass :=
  [OtherPayload "IntroductionRequestPayload";
   OtherPayload "IntroductionResponsePayload"].

(** Two payload groups and the blocks the sample serializer packs them
    into. *)
Definition two_groups : list FormatList :=
  [[("raw"%string, [VBytes [x07]])]; [("raw"%string, [VBytes [x08; x09]])]].

Definition two_blocks : list bytes := [[x07]; [x08; x09]].

(** The sample world at work. *)
Definition check (pk data : bytes) : M (bool * bytes) :=
  _verify_signature sample_eccrypto sample_bundler sample_overlay
    (mkAuth pk) data.

Definition wrapper : bytes -> M nat :=
  lazy_wrapper sample_eccrypto sample_bundler two_payloads
    (handler count_args) sample_overlay sender.

Definition wrapper_wd : bytes -> M nat :=
  lazy_wrapper_wd sample_eccrypto sample_bundler two_payloads
    (handler count_args) sample_overlay sender.

Definition who : Sender := FromPeer (mkPeer [x4b] sender).

Definition decoded : list Arg :=
  [APayload (POther "IntroductionRequestPayload" [x07]);
   APayload (POther "IntroductionResponsePayload" [x08])].

End Sample.

(** ** Notions used to state the properties *)

Module Notions.
Import lazy_community.

(** The bytes of [data] from offset [start] up to [from_end] bytes before
    its end. *)
Definition bytes_between (start from_end : nat) (data : bytes) : bytes :=
  firstn (length data - from_end - start) (skipn start data).

(** The serializer packs the groups [format_list_list], in order, into
    the byte blocks [blocks]. *)
Definition packs_to (s : Serializer) (format_list_list : list FormatList)
  (blocks : list bytes) : Prop :=
  Forall2 (fun format_list block =>
             exists size, pack_multiple s format_list = Ok (block, size))
          format_list_list blocks.

End Notions.

(** ** Abstract classes

    Both classes of [identity_formats.py] are built with [abc.ABCMeta]:
    a class that still has a method marked [abc.abstractmethod] is
    refused at instantiation, before [__init__] runs. *)

Module abstract_classes.
Import identity_formats.

(** The methods of [IdentityAlgorithm] marked [@abc.abstractmethod], in
    the order of the source. *)
Definition IdentityAlgorithm_abstractmethods : list string :=
  ["generate_secret_key"; "load_secret_key"; "load_public_key";
   "get_attestation_class"; "attest"; "certainty"; "create_challenges";
   "create_challenge_response"; "create_certainty_aggregate";
   "create_honesty_challenge"; "process_honesty_challenge";
   "process_challenge_response"]%string.

(** The one abstract method of [Attestation]; [unserialize] is a class
    method and is not marked. *)
Definition Attestation_abstractmethods : list string := ["serialize"%string].

(** The abstract methods left in a class derived from a base with the
    abstract methods [abstract] that defines the methods [defined]. *)
Definition still_abstract (abstract defined : list string) : list string :=
  List.filter (fun m => negb (existsb (String.eqb m) defined)) abstract.

Inductive Instantiation : Type :=
| Instance (obj : IdentityAlgorithm)
| AbstractTypeError (missing : list string)
| InitError (e : Exn).

(** Calling a class derived from [IdentityAlgorithm] that defines the
    methods [defined] and inherits [__init__]. *)
Definition instantiate (defined : list string) (name : string) : Instantiation :=
  match still_abstract IdentityAlgorithm_abstractmethods defined with
  | [] =>
      match __init__ blank name with
      | (self', Ok _) => Instance self'
      | (_, Raise e) => InitError e
      end
  | missing => AbstractTypeError missing
  end.

End abstract_classes.

(** ** Further notions and sample data *)

Module Scenario.
Import lazy_community Sample.

(** The call a raw-passthrough wrapper makes where the plain wrapper makes
    the call [ev]: the handler gets [data] as one more argument. *)
Definition with_data (data : bytes) (ev : Event) : Event :=
  match ev with
  | call_handler who args => call_handler who (args ++ [AData data])
  | _ => ev
  end.

(** A handler given [data] as its last argument. *)
Definition given_data {R} (data : bytes)
  (h : Overlay -> Sender -> list Arg -> result R)
  : Overlay -> Sender -> list Arg -> result R :=
  fun self who args => h self who (args ++ [AData data]).

(** A serializer that refuses to pack an empty group. *)
Definition strict_serializer : Serializer := {|
  pack_multiple := fun fl =>
    match fl with
    | [] => Raise (ExternalError "PackError")
    | _ => pack_list fl
    end;
  unpack_to_serializables := unpack_to_serializables sample_serializer;
  ez_unpack_serializables := ez_unpack_serializables sample_serializer
|}.

Definition strict_overlay : Overlay := {|
  serializer := strict_serializer;
  my_peer := {| key := m2_key; public_key_key_to_bin := [x4b] |};
  _prefix := repeat x00 22
|}.

(** A default backend that decodes one-byte keys only. *)
Definition picky_eccrypto : ECCrypto := {|
  PublicKey := bytes;
  key_from_public_bin := fun pk =>
    match pk with
    | [_] => Ok pk
    | _ => Raise (ExternalError "KeyDecodingError")
    end;
  get_signature_length := fun _ => 2;
  is_valid_signature := fun _ _ signature => bytes_eqb signature [xaa; xbb];
  create_signature := fun _ _ => [xaa; xbb]
|}.


(** [lazy_wrapper] and [lazy_wrapper_wd] of the sample world over the
    picky backend. *)
Definition picky_wrapper : bytes -> M nat :=
  lazy_wrapper picky_eccrypto sample_bundler two_payloads
    (handler count_args) sample_overlay sender.

Definition picky_wrapper_wd : bytes -> M nat :=
  lazy_wrapper_wd picky_eccrypto sample_bundler two_payloads
    (handler count_args) sample_overlay sender.

(** A packet that ends after the message id. *)
Definition bare_packet : bytes := repeat x00 22 ++ [x01].

(** A packet whose auth header carries the empty key. *)
Definition empty_key_packet : bytes :=
  repeat x00 22 ++ [x01] ++ [x00; x00] ++ [x07; x08] ++ [xaa; xbb].

(** The payload objects of [good_packet]. *)
Definition sent : list Payload :=
  [POther "IntroductionRequestPayload" [x07];
   POther "IntroductionResponsePayload" [x08]].

(** An overlay whose key class derives from [LibNaCLSK] and whose public
    key carries the marker. *)
Definition derived_overlay : Overlay := {|
  serializer := sample_serializer;
  my_peer := {| key := derived_key; public_key_key_to_bin := nacl_key_bin |};
  _prefix := repeat x00 22
|}.

End Scenario.

(** * Properties *)

(** ** Byte strings *)

Lemma byte_eqb_true (a b : byte) : Byte.eqb a b = true <-> a = b.
Proof.
  split; [apply Byte.byte_dec_bl | apply Byte.byte_dec_lb].
Qed.

(** [startswith] is the prefix relation. *)
Lemma startswith_prefix (pre s : bytes) :
  startswith pre s = true <-> exists rest, s = pre ++ rest.
Proof.
  revert s; induction pre as [|p pre IH]; intros s; simpl.
  - split; [intros _; exists s; reflexivity | reflexivity].
  - destruct s as [|c s]; simpl.
    + split; [discriminate | intros [rest H]; discriminate].
    + rewrite andb_true_iff, byte_eqb_true, IH. split.
      * intros [-> [rest ->]]. exists rest; reflexivity.
      * intros [rest H]. injection H as -> ->. split; [reflexivity | eauto].
Qed.

(** A slice with a non-negative start and a stop counted from the end. *)
Lemma py_slice_from_end {A} (start n : Z) (l : list A) :
  0 <= start -> 0 < n ->
  py_slice (Some start) (Some (- n)) l =
  firstn (length l - Z.to_nat n - Z.to_nat start) (skipn (Z.to_nat start) l).
Proof.
  intros Hs Hn. unfold py_slice, clamp_index.
  destruct (Z.ltb_spec start 0) as [?|_]; [lia|].
  destruct (Z.ltb_spec (- n) 0) as [_|?]; [|lia].
  set (L := Z.of_nat (length l)).
  destruct (Z.le_gt_cases start L) as [Hle|Hgt].
  - rewrite Z.min_l by exact Hle. f_equal. subst L. lia.
  - rewrite Z.min_r by lia.
    replace (Z.to_nat (Z.max (L + - n) 0 - L)) with 0%nat by lia.
    rewrite (skipn_all2 (n := Z.to_nat start) l) by (subst L; lia).
    rewrite firstn_nil. reflexivity.
Qed.

(** ** identity_formats.py *)

Section IdentityFormats.
Import identity_formats.

Lemma FORMATS_lookup (name : string) :
  is_Some (FORMATS !! name) <->
  name = "id_metadata"%string \/ name = "id_metadata_big"%string \/
  name = "id_metadata_huge"%string.
Proof.
  unfold FORMATS.
  rewrite !lookup_insert_is_Some, lookup_empty, is_Some_alt.
  intuition congruence.
Qed.

(** C6. Construction with a name that is not a key of [FORMATS] raises;
    construction with one of the three registered names returns an
    object, and the [id_format] of every object that construction
    returns is the name it was given, which is a registered one. *)
Theorem construct_checks_format (name : string) :
  (FORMATS !! name = None ->
     construct name =
       Raise (RuntimeError "Tried to initialize with illegal identity format")) /\
  (name = "id_metadata"%string \/ name = "id_metadata_big"%string \/
   name = "id_metadata_huge"%string ->
     construct name = Ok {| id_format := Some name |}) /\
  (forall obj, construct name = Ok obj ->
     id_format obj = Some name /\ is_Some (FORMATS !! name)).
Proof.
  unfold construct, __init__. split; [|split].
  - intros ->. reflexivity.
  - intros H. apply FORMATS_lookup in H as [fmt ->]. reflexivity.
  - intros obj. destruct (FORMATS !! name) as [fmt|]; [|discriminate].
    intros [= <-]. split; [reflexivity | eauto].
Qed.

(** C7. [Attestation.unserialize] raises [NotImplementedError] for every
    [s] and every [id_format], of whatever type, and the outcome is the
    same for any two pairs of arguments. *)
Theorem unserialize_not_implemented :
  forall (S F T : Type) (s : S) (id_format : F),
    @Attestation.unserialize S F T s id_format = Raise NotImplementedError /\
    exn_isinstance NotImplementedError cls_NotImplementedError = true /\
    forall (S' F' : Type) (s' : S') (id_format' : F'),
      @Attestation.unserialize S F T s id_format =
      @Attestation.unserialize S' F' T s' id_format'.
Proof.
  intros. repeat split.
Qed.

Lemma construct_checks_format_witness :
  FORMATS !! "nope"%string = None /\
  construct "nope" =
    Raise (RuntimeError "Tried to initialize with illegal identity format") /\
  construct "id_metadata_big" = Ok {| id_format := Some "id_metadata_big"%string |} /\
  id_format {| id_format := Some "id_metadata_big"%string |} =
    Some "id_metadata_big"%string.
Proof.
  assert (Hnone : FORMATS !! "nope"%string = None) by (vm_compute; reflexivity).
  assert (Hreg : construct "id_metadata_big" =
                 Ok {| id_format := Some "id_metadata_big"%string |}).
  { apply (proj1 (proj2 (construct_checks_format "id_metadata_big"))).
    right; left; reflexivity. }
  split; [exact Hnone|]. split.
  - exact (proj1 (construct_checks_format "nope") Hnone).
  - split; [exact Hreg|].
    exact (proj1 (proj2 (proj2 (construct_checks_format "id_metadata_big")) _ Hreg)).
Defined.

End IdentityFormats.

(** ** lazy_community.py: signature verification *)

Section VerifySignature.
Import lazy_community Notions.

Variable ec : ECCrypto.
Variable bb : Bundler.

Lemma py_slice_drop_tail {A} (n : Z) (l : list A) :
  0 < n -> py_slice None (Some (- n)) l = firstn (length l - Z.to_nat n) l.
Proof.
  intros Hn. unfold py_slice, clamp_index.
  destruct (Z.ltb_spec (- n) 0) as [_|?]; [|lia].
  simpl. f_equal. lia.
Qed.

Lemma py_slice_tail {A} (n : Z) (l : list A) :
  0 < n -> py_slice (Some (- n)) None l = skipn (length l - Z.to_nat n) l.
Proof.
  intros Hn. unfold py_slice, clamp_index.
  destruct (Z.ltb_spec (- n) 0) as [_|?]; [|lia].
  rewrite firstn_all2 by (rewrite length_skipn; lia).
  f_equal. lia.
Qed.

(** Every call made by [_verify_signature] is a call to a signature
    backend. *)
Lemma verify_signature_calls (self : Overlay) (auth : AuthHeader) (data : bytes) :
  List.Forall (fun ev => backend_of ev <> None)
              (trace (_verify_signature ec bb self auth data)).
Proof.
  unfold _verify_signature.
  destruct (startswith _ _).
  - simpl. repeat constructor; discriminate.
  - unfold bind, call, ret, trace.
    destruct (key_from_public_bin ec (public_key_bin auth)); simpl;
      repeat constructor; discriminate.
Qed.

Lemma verify_signature_no_handler (self : Overlay) (auth : AuthHeader) (data : bytes) :
  handler_calls (trace (_verify_signature ec bb self auth data)) = [].
Proof.
  unfold handler_calls.
  induction (verify_signature_calls self auth data) as [|ev t Hev _ IH];
    [reflexivity|].
  simpl. rewrite IH. destruct ev; simpl in *; congruence.
Qed.

(** C3. [_verify_signature] calls the accelerated verifier exactly when
    [public_key_bin] starts with [LibNaCLPK:], and then makes that one
    call only; for every other key it calls the default backend, first
    of all to decode the key and then, with the decoded key, its
    verifier, and never the accelerated one.  Exactly one of the two
    backends is used on every input. *)
Theorem verify_signature_backend_by_marker
    (self : Overlay) (auth : AuthHeader) (data : bytes) :
  let pk := public_key_bin auth in
  let run := _verify_signature ec bb self auth data in
  (uses_backend Accelerated (trace run) = true <->
     exists rest, pk = LibNaCLPK_marker ++ rest) /\
  uses_backend Default (trace run) = negb (uses_backend Accelerated (trace run)) /\
  ((exists rest, pk = LibNaCLPK_marker ++ rest) ->
     run = ([call_borrowed_verify_signature pk data],
            Ok (borrowed_verify_signature bb pk data))) /\
  ((~ exists rest, pk = LibNaCLPK_marker ++ rest) ->
     (exists later, trace run = call_key_from_public_bin pk :: later /\
                    uses_backend Accelerated later = false) /\
     forall public_key, key_from_public_bin ec pk = Ok public_key ->
       exists signed signature remainder,
         run = ([call_key_from_public_bin pk; call_get_signature_length pk;
                 call_is_valid_signature pk signed signature],
                Ok (is_valid_signature ec public_key signed signature, remainder))).
Proof.
  intros pk run. subst run pk.
  rewrite <- startswith_prefix.
  unfold _verify_signature.
  destruct (startswith LibNaCLPK_marker (public_key_bin auth)) eqn:Hm.
  - simpl. repeat split; auto; intros; congruence.
  - unfold bind, call, ret, trace.
    destruct (key_from_public_bin ec (public_key_bin auth)) as [public_key|e];
      simpl; (split; [split; discriminate|]); (split; [reflexivity|]);
      (split; [discriminate|]); intros _;
      (split; [eexists; split; reflexivity|]).
    + intros k [= <-]. do 3 eexists. reflexivity.
    + intros k [=].
Qed.

(** C4. On the default branch, for a key the backend decodes and a
    positive signature length [n], [_verify_signature] returns, and the
    remainder it returns is the part of [data] from offset
    [23 + 2 + len(public_key_bin)] to [n] bytes before the end; the
    validity flag is the backend's verdict on the last [n] bytes as a
    signature of everything before them. *)
Theorem verify_signature_default_remainder
    (self : Overlay) (auth : AuthHeader) (data : bytes)
    (public_key : PublicKey ec) :
  startswith LibNaCLPK_marker (public_key_bin auth) = false ->
  key_from_public_bin ec (public_key_bin auth) = Ok public_key ->
  0 < get_signature_length ec public_key ->
  let n := Z.to_nat (get_signature_length ec public_key) in
  outcome (_verify_signature ec bb self auth data) =
    Ok (is_valid_signature ec public_key
          (firstn (length data - n) data) (skipn (length data - n) data),
        bytes_between (23 + 2 + length (public_key_bin auth)) n data).
Proof.
  intros Hm Hkey Hn n. unfold _verify_signature.
  rewrite Hm. unfold bind, call, ret, outcome. rewrite Hkey. simpl.
  rewrite py_slice_drop_tail, py_slice_tail by exact Hn.
  rewrite py_slice_from_end by (unfold len; lia).
  unfold bytes_between, len. subst n.
  replace (Z.to_nat (23 + 2 + Z.of_nat (length (public_key_bin auth))))
    with (23 + 2 + length (public_key_bin auth))%nat by lia.
  reflexivity.
Qed.

End VerifySignature.

Lemma verify_signature_backend_by_marker_witness :
  (exists rest, Sample.nacl_key_bin = lazy_community.LibNaCLPK_marker ++ rest) /\
  Sample.check Sample.nacl_key_bin Sample.nacl_packet =
    ([lazy_community.call_borrowed_verify_signature
        Sample.nacl_key_bin Sample.nacl_packet],
     Ok (true, [x07; x08])) /\
  (~ exists rest, [x4b] = lazy_community.LibNaCLPK_marker ++ rest) /\
  exists later,
    lazy_community.trace (Sample.check [x4b] Sample.good_packet) =
      lazy_community.call_key_from_public_bin [x4b] :: later /\
    lazy_community.uses_backend lazy_community.Accelerated later = false.
Proof.
  assert (Hyes : exists rest, Sample.nacl_key_bin =
                              lazy_community.LibNaCLPK_marker ++ rest)
    by (exists [x4b]; reflexivity).
  assert (Hno : ~ exists rest, [x4b] = lazy_community.LibNaCLPK_marker ++ rest)
    by (intros [rest H]; vm_compute in H; discriminate H).
  split; [exact Hyes|]. split.
  - exact (proj1 (proj2 (proj2 (verify_signature_backend_by_marker
             Sample.sample_eccrypto Sample.sample_bundler Sample.sample_overlay
             (lazy_community.mkAuth Sample.nacl_key_bin)
             Sample.nacl_packet))) Hyes).
  - split; [exact Hno|].
    exact (proj1 (proj2 (proj2 (proj2 (verify_signature_backend_by_marker
             Sample.sample_eccrypto Sample.sample_bundler Sample.sample_overlay
             (lazy_community.mkAuth [x4b]) Sample.good_packet))) Hno)).
Defined.

Lemma verify_signature_default_remainder_witness :
  lazy_community.outcome (Sample.check [x4b] Sample.good_packet) =
  Ok (true, [x07; x08]).
Proof.
  exact (verify_signature_default_remainder
           Sample.sample_eccrypto Sample.sample_bundler Sample.sample_overlay
           (lazy_community.mkAuth [x4b]) Sample.good_packet [x4b]
           eq_refl eq_refl eq_refl).
Defined.

(** ** lazy_community.py: authenticated unpacking and dispatch *)

Section Dispatch.
Import lazy_community Notions.

Variable ec : ECCrypto.
Variable bb : Bundler.

Lemma handler_calls_app (t u : list Event) :
  handler_calls (t ++ u) = handler_calls t ++ handler_calls u.
Proof. apply List.filter_app. Qed.

(** The header step of the authenticated paths, when the serializer
    returns one auth header. *)
Lemma unpack_auth_ok (self : Overlay) (data : bytes) (auth : AuthHeader)
    (rest : bytes) :
  unpack_to_serializables (serializer self) [BinMemberAuthenticationPayload]
    (py_slice (Some 23) None data) = Ok ([PAuth auth], rest) ->
  unpack_auth self data =
    ([call_unpack_to_serializables [BinMemberAuthenticationPayload]
        (py_slice (Some 23) None data)], Ok (auth, rest)).
Proof.
  intros H. unfold unpack_auth, bind, call. rewrite H. reflexivity.
Qed.

Section Wrappers.
Context {R : Type}.
Variable h : Overlay -> Sender -> list Arg -> result R.
Variable self : Overlay.
Variable payloads : list PayloadClass.
Variable source_address : Address.
Variable data : bytes.
Variable auth : AuthHeader.
Variable after_header : bytes.
Variable valid : bool.
Variable remainder : bytes.

Hypothesis header_decodes :
  unpack_to_serializables (serializer self) [BinMemberAuthenticationPayload]
    (py_slice (Some 23) None data) = Ok ([PAuth auth], after_header).
Hypothesis check_returns :
  outcome (_verify_signature ec bb self auth data) = Ok (valid, remainder).

Let peer : Sender := FromPeer (mkPeer (public_key_bin auth) source_address).
Let message : string :=
  invalid_signature_message (py_str_list (List.map __name__ payloads)).
Let checked : list Event :=
  call_unpack_to_serializables [BinMemberAuthenticationPayload]
    (py_slice (Some 23) None data)
  :: trace (_verify_signature ec bb self auth data).

(** Both authenticated wrappers, spelled out: the calls they make and
    their outcome. *)
Lemma lazy_wrapper_run :
  lazy_wrapper ec bb payloads (handler h) self source_address data =
  match ez_unpack_serializables (serializer self) payloads remainder with
  | Raise e =>
      (checked ++ [call_ez_unpack_serializables payloads remainder], Raise e)
  | Ok unpacked =>
      if valid then
        match key_from_public_bin ec (public_key_bin auth) with
        | Ok _ =>
            (checked ++ [call_ez_unpack_serializables payloads remainder;
                         call_key_from_public_bin (public_key_bin auth);
                         call_handler peer (List.map APayload unpacked)],
             h self peer (List.map APayload unpacked))
        | Raise e =>
            (checked ++ [call_ez_unpack_serializables payloads remainder;
                         call_key_from_public_bin (public_key_bin auth)],
             Raise e)
        end
      else
        (checked ++ [call_ez_unpack_serializables payloads remainder],
         Raise (PacketDecodingError message))
  end.
Proof.
  unfold lazy_wrapper. rewrite (unpack_auth_ok _ _ _ _ header_decodes).
  subst checked. revert check_returns.
  unfold bind at 1. cbn [fst snd].
  destruct (_verify_signature ec bb self auth data) as [t r].
  unfold outcome, trace. simpl. intros ->.
  unfold Peer__init__, bind, call; simpl.
  destruct (ez_unpack_serializables _ _ _) as [unpacked|e];
    [destruct valid; [destruct (key_from_public_bin ec _)|]|]; reflexivity.
Qed.

Lemma lazy_wrapper_wd_run :
  lazy_wrapper_wd ec bb payloads (handler h) self source_address data =
  match ez_unpack_serializables (serializer self) payloads remainder with
  | Raise e =>
      (checked ++ [call_ez_unpack_serializables payloads remainder], Raise e)
  | Ok unpacked =>
      if valid then
        match key_from_public_bin ec (public_key_bin auth) with
        | Ok _ =>
            (checked ++ [call_ez_unpack_serializables payloads remainder;
                         call_key_from_public_bin (public_key_bin auth);
                         call_handler peer
                           (List.map APayload unpacked ++ [AData data])],
             h self peer (List.map APayload unpacked ++ [AData data]))
        | Raise e =>
            (checked ++ [call_ez_unpack_serializables payloads remainder;
                         call_key_from_public_bin (public_key_bin auth)],
             Raise e)
        end
      else
        (checked ++ [call_ez_unpack_serializables payloads remainder],
         Raise (PacketDecodingError message))
  end.
Proof.
  unfold lazy_wrapper_wd. rewrite (unpack_auth_ok _ _ _ _ header_decodes).
  subst checked. revert check_returns.
  unfold bind at 1. cbn [fst snd].
  destruct (_verify_signature ec bb self auth data) as [t r].
  unfold outcome, trace. simpl. intros ->.
  unfold Peer__init__, bind, call; simpl.
  destruct (ez_unpack_serializables _ _ _) as [unpacked|e];
    [destruct valid; [destruct (key_from_public_bin ec _)|]|]; reflexivity.
Qed.

(** A check that returned on the default branch has decoded the key. *)
Lemma returned_check_decoded_key :
  startswith LibNaCLPK_marker (public_key_bin auth) = false ->
  exists public_key,
    key_from_public_bin ec (public_key_bin auth) = Ok public_key.
Proof.
  intros Hm. revert check_returns. unfold _verify_signature. rewrite Hm.
  unfold bind, call.
  destruct (key_from_public_bin ec (public_key_bin auth)) as [public_key|e].
  - eauto.
  - unfold outcome; cbn [snd]. discriminate.
Qed.

Lemma ez_unpack_auth_run (payload_class : PayloadClass) :
  let format := [GlobalTimeDistributionPayload; payload_class] in
  _ez_unpack_auth ec bb self payload_class data =
  (checked ++ [call_ez_unpack_serializables format remainder],
   match ez_unpack_serializables (serializer self) format remainder with
   | Ok [dist; payload] =>
       if valid then Ok (auth, dist, payload)
       else Raise (PacketDecodingError
                     (invalid_signature_message (__name__ payload_class)))
   | Ok _ => Raise ValueError
   | Raise e => Raise e
   end).
Proof.
  intros format. subst format.
  unfold _ez_unpack_auth. rewrite (unpack_auth_ok _ _ _ _ header_decodes).
  subst checked. revert check_returns.
  unfold bind at 1. cbn [fst snd].
  destruct (_verify_signature ec bb self auth data) as [t r].
  unfold outcome, trace. simpl. intros ->. unfold bind, call; simpl.
  destruct (ez_unpack_serializables _ _ _) as [[|d [|q [|x u]]]|e];
    try destruct valid; simpl; rewrite ?app_nil_r; reflexivity.
Qed.

Lemma checked_no_handler : handler_calls checked = [].
Proof.
  subst checked. unfold handler_calls. simpl.
  apply (verify_signature_no_handler ec bb).
Qed.

(** C1 (as the code has it). For an input whose auth header decodes
    and whose signature check returns [(valid, remainder)]: if [valid]
    is false, neither authenticated wrapper invokes the handler, and
    both raise [PacketDecodingError] when the payloads deserialize from
    [remainder] and the serializer's own exception when they do not; if
    [valid] is true and the payloads deserialize, the wrappers build the
    [Peer] from [auth.public_key_bin] and [source_address]: when
    [default_eccrypto] decodes the key, which it always does for a key
    without the marker, the handler is invoked exactly once with that
    [Peer] and the decoded payloads in their order, followed by [data]
    for [lazy_wrapper_wd], and its outcome is the wrapper's; when it
    does not, the handler is not invoked and the decoding exception is
    the wrapper's. *)
Theorem authenticated_wrappers_dispatch :
  let run := lazy_wrapper ec bb payloads (handler h) self source_address data in
  let run_wd := lazy_wrapper_wd ec bb payloads (handler h) self source_address data in
  let who := FromPeer (mkPeer (public_key_bin auth) source_address) in
  (valid = false ->
     handler_calls (trace run) = [] /\
     handler_calls (trace run_wd) = [] /\
     (forall unpacked,
        ez_unpack_serializables (serializer self) payloads remainder = Ok unpacked ->
        outcome run =
          Raise (PacketDecodingError
                   (invalid_signature_message
                      (py_str_list (List.map __name__ payloads)))) /\
        outcome run_wd =
          Raise (PacketDecodingError
                   (invalid_signature_message
                      (py_str_list (List.map __name__ payloads))))) /\
     (forall e,
        ez_unpack_serializables (serializer self) payloads remainder = Raise e ->
        outcome run = Raise e /\ outcome run_wd = Raise e)) /\
  (valid = true ->
     forall unpacked,
       ez_unpack_serializables (serializer self) payloads remainder = Ok unpacked ->
       (forall public_key,
          key_from_public_bin ec (public_key_bin auth) = Ok public_key ->
          handler_calls (trace run) =
            [call_handler who (List.map APayload unpacked)] /\
          outcome run = h self who (List.map APayload unpacked) /\
          handler_calls (trace run_wd) =
            [call_handler who (List.map APayload unpacked ++ [AData data])] /\
          outcome run_wd =
            h self who (List.map APayload unpacked ++ [AData data])) /\
       (forall e,
          key_from_public_bin ec (public_key_bin auth) = Raise e ->
          handler_calls (trace run) = [] /\ outcome run = Raise e /\
          handler_calls (trace run_wd) = [] /\ outcome run_wd = Raise e) /\
       (startswith LibNaCLPK_marker (public_key_bin auth) = false ->
        exists public_key,
          key_from_public_bin ec (public_key_bin auth) = Ok public_key)).
Proof.
  intros run run_wd who. subst run run_wd.
  rewrite lazy_wrapper_run, lazy_wrapper_wd_run.
  pose proof checked_no_handler as Hc.
  pose proof returned_check_decoded_key as Hdec. fold peer. subst who.
  split.
  - intros ->.
    destruct (ez_unpack_serializables _ _ _) as [unpacked|e];
      unfold trace, outcome; cbn [fst snd];
      rewrite handler_calls_app, Hc.
    + split; [reflexivity|]. split; [reflexivity|]. split.
      * intros u _. split; reflexivity.
      * intros e' [=].
    + split; [reflexivity|]. split; [reflexivity|]. split.
      * intros u [=].
      * intros e' [= <-]. split; reflexivity.
  - intros -> unpacked ->. split; [|split].
    + intros public_key ->. unfold trace, outcome; cbn [fst snd].
      rewrite !handler_calls_app, Hc. repeat split.
    + intros e ->. unfold trace, outcome; cbn [fst snd].
      rewrite !handler_calls_app, Hc. repeat split.
    + exact Hdec.
Qed.

(** C2 (as the code has it). In [lazy_wrapper] and [_ez_unpack_auth],
    for an input whose auth header decodes and whose signature check
    returns [(valid, remainder)], the payload classes are deserialized
    from [remainder] right after the last call of the signature check,
    which itself deserializes nothing, and this happens whether
    [valid] is true or false; with [valid] false nothing is called
    after that deserialization and the outcome is an exception. *)
Theorem authenticated_unpack_order (payload_class : PayloadClass) :
  let header_call :=
    call_unpack_to_serializables [BinMemberAuthenticationPayload]
      (py_slice (Some 23) None data) in
  let verify := trace (_verify_signature ec bb self auth data) in
  let format := [GlobalTimeDistributionPayload; payload_class] in
  existsb is_payload_deserialization verify = false /\
  (exists later,
     trace (lazy_wrapper ec bb payloads (handler h) self source_address data) =
       header_call :: verify ++
         call_ez_unpack_serializables payloads remainder :: later /\
     (valid = false ->
        later = [] /\
        exists e, outcome (lazy_wrapper ec bb payloads (handler h) self
                             source_address data) = Raise e)) /\
  trace (_ez_unpack_auth ec bb self payload_class data) =
    header_call :: verify ++ [call_ez_unpack_serializables format remainder] /\
  (valid = false ->
     exists e, outcome (_ez_unpack_auth ec bb self payload_class data) = Raise e).
Proof.
  intros header_call verify format. split.
  { subst verify.
    induction (verify_signature_calls ec bb self auth data) as [|ev t Hev _ IH];
      [reflexivity|].
    simpl. rewrite IH. destruct ev; simpl in *; congruence. }
  split.
  { rewrite lazy_wrapper_run. subst header_call verify.
    destruct (ez_unpack_serializables _ _ _) as [unpacked|e];
      [destruct valid; [destruct (key_from_public_bin ec _)|]|];
      unfold trace, outcome; cbn [fst snd];
      eexists; (split; [reflexivity|]); intros; try discriminate; eauto. }
  rewrite ez_unpack_auth_run. subst header_call verify format.
  unfold trace, outcome; cbn [fst snd].
  split; [reflexivity|]. intros ->.
  destruct (ez_unpack_serializables _ _ _) as [[|d [|q [|x u]]]|e]; eauto.
Qed.

End Wrappers.

End Dispatch.

Section DispatchSamples.
Import lazy_community Sample Scenario.

Lemma authenticated_wrappers_dispatch_witness :
  (outcome (check [x4b] tampered_packet) = Ok (false, [x07; x08]) /\
   handler_calls (trace (wrapper tampered_packet)) = [] /\
   handler_calls (trace (wrapper_wd tampered_packet)) = [] /\
   outcome (wrapper tampered_packet) =
     Raise (PacketDecodingError
              (invalid_signature_message (py_str_list (List.map __name__ two_payloads)))) /\
   outcome (wrapper_wd tampered_packet) =
     Raise (PacketDecodingError
              (invalid_signature_message (py_str_list (List.map __name__ two_payloads))))) /\
  (outcome (check [x4b] short_tampered_packet) = Ok (false, [x07]) /\
   outcome (wrapper short_tampered_packet) = Raise (ExternalError "PackError") /\
   outcome (wrapper_wd short_tampered_packet) = Raise (ExternalError "PackError")) /\
  (outcome (check [x4b] good_packet) = Ok (true, [x07; x08]) /\
   handler_calls (trace (wrapper good_packet)) = [call_handler who decoded] /\
   outcome (wrapper good_packet) = Ok 2%nat /\
   handler_calls (trace (wrapper_wd good_packet)) =
     [call_handler who (decoded ++ [AData good_packet])] /\
   outcome (wrapper_wd good_packet) = Ok 3%nat) /\
  (handler_calls (trace (picky_wrapper nacl_packet)) = [] /\
   outcome (picky_wrapper nacl_packet) = Raise (ExternalError "KeyDecodingError") /\
   handler_calls (trace (picky_wrapper_wd nacl_packet)) = [] /\
   outcome (picky_wrapper_wd nacl_packet) =
     Raise (ExternalError "KeyDecodingError")).
Proof.
  split; [|split; [|split]].
  - destruct (authenticated_wrappers_dispatch
                sample_eccrypto sample_bundler count_args sample_overlay
                two_payloads sender tampered_packet (mkAuth [x4b])
                [x07; x08; xaa; x00] false [x07; x08] eq_refl eq_refl)
      as [Hbad _].
    destruct (Hbad eq_refl) as (H1 & H2 & H3 & _).
    split; [reflexivity|]. split; [exact H1|]. split; [exact H2|].
    exact (H3 _ eq_refl).
  - destruct (authenticated_wrappers_dispatch
                sample_eccrypto sample_bundler count_args sample_overlay
                two_payloads sender short_tampered_packet (mkAuth [x4b])
                [x07; xaa; x00] false [x07] eq_refl eq_refl)
      as [Hbad _].
    destruct (Hbad eq_refl) as (_ & _ & _ & H4).
    split; [reflexivity|]. exact (H4 _ eq_refl).
  - destruct (authenticated_wrappers_dispatch
                sample_eccrypto sample_bundler count_args sample_overlay
                two_payloads sender good_packet (mkAuth [x4b])
                [x07; x08; xaa; xbb] true [x07; x08] eq_refl eq_refl)
      as [_ Hgood].
    split; [reflexivity|].
    exact (proj1 (Hgood eq_refl _ eq_refl) [x4b] eq_refl).
  - destruct (authenticated_wrappers_dispatch
                picky_eccrypto sample_bundler count_args sample_overlay
                two_payloads sender nacl_packet (mkAuth nacl_key_bin)
                [x07; x08; xcc] true [x07; x08] eq_refl eq_refl)
      as [_ Hgood].
    exact (proj1 (proj2 (Hgood eq_refl _ eq_refl))
             (ExternalError "KeyDecodingError") eq_refl).
Defined.

(** C1, as stated, fails on two packets.  The signature of
    [short_tampered_packet] is invalid and its one payload byte does not
    hold the two declared payloads: the wrapper raises the serializer's
    error, not [PacketDecodingError].  The signature of [nacl_packet] is
    valid and its payloads deserialize, but the default backend does not
    decode its key: building the [Peer] raises and the handler is not
    invoked. *)
Lemma lazy_wrapper_raises_other_errors :
  (outcome (check [x4b] short_tampered_packet) = Ok (false, [x07]) /\
   outcome (wrapper short_tampered_packet) = Raise (ExternalError "PackError") /\
   ~ exists msg,
       outcome (wrapper short_tampered_packet) = Raise (PacketDecodingError msg)) /\
  (outcome (_verify_signature picky_eccrypto sample_bundler sample_overlay
              (mkAuth nacl_key_bin) nacl_packet) = Ok (true, [x07; x08]) /\
   ez_unpack_serializables (serializer sample_overlay) two_payloads [x07; x08] =
     Ok [POther "IntroductionRequestPayload" [x07];
         POther "IntroductionResponsePayload" [x08]] /\
   handler_calls (trace (picky_wrapper nacl_packet)) = [] /\
   outcome (picky_wrapper nacl_packet) = Raise (ExternalError "KeyDecodingError")).
Proof.
  split.
  - split; [reflexivity|]. split; [reflexivity|].
    intros [msg H]. vm_compute in H. discriminate H.
  - repeat split.
Qed.

Lemma authenticated_unpack_order_witness :
  trace (wrapper tampered_packet) =
    call_unpack_to_serializables [BinMemberAuthenticationPayload]
      (py_slice (Some 23) None tampered_packet)
    :: trace (check [x4b] tampered_packet)
    ++ [call_ez_unpack_serializables two_payloads [x07; x08]] /\
  trace (_ez_unpack_auth sample_eccrypto sample_bundler sample_overlay
           (OtherPayload "IntroductionRequestPayload") tampered_packet) =
    call_unpack_to_serializables [BinMemberAuthenticationPayload]
      (py_slice (Some 23) None tampered_packet)
    :: trace (check [x4b] tampered_packet)
    ++ [call_ez_unpack_serializables
          [GlobalTimeDistributionPayload;
           OtherPayload "IntroductionRequestPayload"] [x07; x08]].
Proof.
  destruct (authenticated_unpack_order
              sample_eccrypto sample_bundler count_args sample_overlay
              two_payloads sender tampered_packet (mkAuth [x4b])
              [x07; x08; xaa; x00] false [x07; x08] eq_refl eq_refl
              (OtherPayload "IntroductionRequestPayload"))
    as (_ & (later & Ht & Hl) & Hu & _).
  destruct (Hl eq_refl) as [Hnil _]. rewrite Hnil in Ht.
  split; [exact Ht | exact Hu].
Defined.

(** C2, as stated, fails on [tampered_packet]: the signature check
    returns false, and both
    authenticated paths have by then asked the serializer to build the
    payload objects from the unverified bytes. *)
Lemma payloads_deserialized_despite_invalid_signature :
  outcome (check [x4b] tampered_packet) = Ok (false, [x07; x08]) /\
  List.filter is_payload_deserialization (trace (wrapper tampered_packet)) =
    [call_ez_unpack_serializables two_payloads [x07; x08]] /\
  List.filter is_payload_deserialization
    (trace (_ez_unpack_auth sample_eccrypto sample_bundler sample_overlay
              (OtherPayload "IntroductionRequestPayload") tampered_packet)) =
    [call_ez_unpack_serializables
       [GlobalTimeDistributionPayload;
        OtherPayload "IntroductionRequestPayload"] [x07; x08]] /\
  ez_unpack_serializables (serializer sample_overlay) two_payloads [x07; x08] =
    Ok [POther "IntroductionRequestPayload" [x07];
        POther "IntroductionResponsePayload" [x08]].
Proof.
  repeat split.
Qed.

End DispatchSamples.

(** ** lazy_community.py: packing *)

Section Packing.
Import lazy_community Notions.

Lemma KeyClass_eqb_eq (a b : KeyClass) : KeyClass_eqb a b = true <-> a = b.
Proof.
  revert b; induction a as [| |n a IH]; intros [| |m b]; simpl;
    try (split; [reflexivity || discriminate | reflexivity || discriminate]).
  rewrite andb_true_iff, String.eqb_eq, IH. split.
  - intros [-> ->]; reflexivity.
  - intros [= -> ->]; split; reflexivity.
Qed.

(** The packing loop appends the blocks in the order of the groups. *)
Lemma pack_groups_ok (self : Overlay) (format_list_list : list FormatList)
    (blocks : list bytes) :
  packs_to (serializer self) format_list_list blocks ->
  forall packet,
    pack_groups self format_list_list packet =
    (List.map call_pack_multiple format_list_list,
     Ok (packet ++ List.concat blocks)).
Proof.
  induction 1 as [|fl block fll blocks [size Hfl] _ IH]; intros packet; simpl.
  - rewrite app_nil_r. reflexivity.
  - unfold bind, call. rewrite Hfl, IH. simpl. rewrite <- app_assoc.
    reflexivity.
Qed.

Lemma pack_calls_no_backend (b : Backend) (format_list_list : list FormatList) :
  uses_backend b (List.map call_pack_multiple format_list_list) = false.
Proof.
  induction format_list_list as [|fl fll IH]; [reflexivity|].
  destruct b; exact IH.
Qed.

Lemma uses_backend_app (b : Backend) (t u : list Event) :
  uses_backend b (t ++ u) = uses_backend b t || uses_backend b u.
Proof. apply existsb_app. Qed.

Variable ec : ECCrypto.
Variable bb : Bundler.
Variable to_pack_list : Payload -> FormatList.

(** [_ez_pack] once the groups are packed. *)
Lemma ez_pack_run (self : Overlay) (prefix : bytes) (msg_num : byte)
    (format_list_list : list FormatList) (blocks : list bytes) (sig : bool) :
  packs_to (serializer self) format_list_list blocks ->
  let k := key (my_peer self) in
  let assembled := prefix ++ [msg_num] ++ List.concat blocks in
  _ez_pack ec bb self prefix msg_num format_list_list sig =
  (List.map call_pack_multiple format_list_list ++
     (if sig then
        if KeyClass_eqb (key_type k) LibNaCLSK
        then [call_borrowed_create_signature (key_seed k) (veri_vk k) assembled]
        else [call_create_signature k assembled]
      else []),
   Ok (if sig then
         if KeyClass_eqb (key_type k) LibNaCLSK
         then borrowed_create_signature bb (key_seed k) (veri_vk k) assembled
         else assembled ++ create_signature ec k assembled
       else assembled)).
Proof.
  intros Hp k assembled. unfold _ez_pack.
  rewrite (pack_groups_ok _ _ _ Hp). unfold bind, cast_to_bin_chr.
  subst assembled k. rewrite <- app_assoc.
  destruct sig; [destruct (KeyClass_eqb _ _)|]; reflexivity.
Qed.


(** C9. With [sig] set and the groups packed, [_ez_pack] signs through
    the accelerated bundler when the type of the sender's key is exactly
    [LibNaCLSK], and through [create_signature] of the default backend
    for every other type, a class derived from [LibNaCLSK] included. *)
Theorem ez_pack_backend_by_exact_type (self : Overlay) (prefix : bytes)
    (msg_num : byte) (format_list_list : list FormatList) (blocks : list bytes) :
  packs_to (serializer self) format_list_list blocks ->
  let k := key (my_peer self) in
  let assembled := prefix ++ [msg_num] ++ List.concat blocks in
  let run := _ez_pack ec bb self prefix msg_num format_list_list true in
  (key_type k = LibNaCLSK ->
     run = (List.map call_pack_multiple format_list_list ++
              [call_borrowed_create_signature (key_seed k) (veri_vk k) assembled],
            Ok (borrowed_create_signature bb (key_seed k) (veri_vk k) assembled))) /\
  (key_type k <> LibNaCLSK ->
     run = (List.map call_pack_multiple format_list_list ++
              [call_create_signature k assembled],
            Ok (assembled ++ create_signature ec k assembled))) /\
  (forall name base,
     key_type k = Subclass name base -> issubclass (key_type k) LibNaCLSK = true ->
     uses_backend Default (trace run) = true /\
     uses_backend Accelerated (trace run) = false) /\
  (uses_backend Accelerated (trace run) = true <-> key_type k = LibNaCLSK) /\
  uses_backend Default (trace run) = negb (uses_backend Accelerated (trace run)).
Proof.
  intros Hp k assembled run. subst run.
  rewrite (ez_pack_run _ _ _ _ _ _ Hp). fold k. fold assembled.
  unfold trace; cbn [fst].
  rewrite !uses_backend_app, !pack_calls_no_backend.
  pose proof (KeyClass_eqb_eq (key_type k) LibNaCLSK) as Heq.
  destruct (KeyClass_eqb (key_type k) LibNaCLSK); simpl.
  - assert (Hk : key_type k = LibNaCLSK) by (apply Heq; reflexivity).
    repeat split; auto; try congruence.
    all: intros name base Hs; rewrite Hs in Hk; discriminate.
  - assert (Hk : key_type k <> LibNaCLSK)
      by (intros Hk; apply Heq in Hk; discriminate).
    repeat split; auto; try congruence; try discriminate.
Qed.

End Packing.

Section PackingTwice.
Import lazy_community Notions.



(** C10. [_ez_unpack_noauth] deserializes from [data[23:]].  With
    [global_time] true it asks for [GlobalTimeDistributionPayload] and
    [payload_class] and returns the list of the two objects; with
    [global_time] false it asks for [payload_class] alone and returns the
    first object itself.  Whatever the serializer does, a result of the
    first kind is a list and a result of the second kind is an object. *)
Theorem ez_unpack_noauth_shape (self : Overlay) (payload_class : PayloadClass)
    (data : bytes) :
  let rest := py_slice (Some 23) None data in
  let both := [GlobalTimeDistributionPayload; payload_class] in
  (forall dist payload,
     ez_unpack_serializables (serializer self) both rest = Ok [dist; payload] ->
     _ez_unpack_noauth self payload_class data true =
       ([call_ez_unpack_serializables both rest], Ok (UList [dist; payload]))) /\
  (forall payload others,
     ez_unpack_serializables (serializer self) [payload_class] rest =
       Ok (payload :: others) ->
     _ez_unpack_noauth self payload_class data false =
       ([call_ez_unpack_serializables [payload_class] rest],
        Ok (UObject payload))) /\
  (forall r, outcome (_ez_unpack_noauth self payload_class data true) = Ok r ->
     exists objs, r = UList objs /\
       ez_unpack_serializables (serializer self) both rest = Ok objs) /\
  (forall r, outcome (_ez_unpack_noauth self payload_class data false) = Ok r ->
     exists payload others, r = UObject payload /\
       ez_unpack_serializables (serializer self) [payload_class] rest =
         Ok (payload :: others)).
Proof.
  intros rest both. subst rest both. unfold _ez_unpack_noauth, bind, call, ret.
  repeat split.
  - intros dist payload ->. reflexivity.
  - intros payload others ->. reflexivity.
  - intros r. destruct (ez_unpack_serializables _ _ _) as [objs|e];
      unfold outcome; cbn [snd]; intros [= <-]. eauto.
  - intros r. destruct (ez_unpack_serializables _ _ _) as [[|p others]|e];
      unfold outcome, raise; cbn [snd]; intros [= <-]. eauto.
Qed.

End PackingTwice.

Section PackingSamples.
Import lazy_community Notions Sample Scenario.

Lemma sample_packs_to : packs_to sample_serializer two_groups two_blocks.
Proof. repeat constructor; eexists; reflexivity. Defined.



Lemma ez_pack_backend_by_exact_type_witness :
  _ez_pack sample_eccrypto sample_bundler (overlay_with nacl_key)
    [x10] x01 two_groups true =
    (List.map call_pack_multiple two_groups ++
       [call_borrowed_create_signature [x05] [x06] [x10; x01; x07; x08; x09]],
     Ok [x10; x01; x07; x08; x09; xcc]) /\
  _ez_pack sample_eccrypto sample_bundler (overlay_with m2_key)
    [x10] x01 two_groups true =
    (List.map call_pack_multiple two_groups ++
       [call_create_signature m2_key [x10; x01; x07; x08; x09]],
     Ok [x10; x01; x07; x08; x09; xaa; xbb]) /\
  issubclass (key_type derived_key) LibNaCLSK = true /\
  uses_backend Default
    (trace (_ez_pack sample_eccrypto sample_bundler (overlay_with derived_key)
              [x10] x01 two_groups true)) = true /\
  uses_backend Accelerated
    (trace (_ez_pack sample_eccrypto sample_bundler (overlay_with derived_key)
              [x10] x01 two_groups true)) = false.
Proof.
  split; [|split; [|split]].
  - exact (proj1 (ez_pack_backend_by_exact_type sample_eccrypto sample_bundler
                    (overlay_with nacl_key) [x10] x01 two_groups two_blocks
                    sample_packs_to) eq_refl).
  - apply (proj1 (proj2 (ez_pack_backend_by_exact_type sample_eccrypto
                           sample_bundler (overlay_with m2_key) [x10] x01
                           two_groups two_blocks sample_packs_to))).
    simpl. discriminate.
  - reflexivity.
  - exact (proj1 (proj2 (proj2 (ez_pack_backend_by_exact_type sample_eccrypto
                           sample_bundler (overlay_with derived_key) [x10] x01
                           two_groups two_blocks sample_packs_to)))
             "MySK"%string LibNaCLSK eq_refl eq_refl).
Defined.



Lemma ez_unpack_noauth_shape_witness :
  outcome (_ez_unpack_noauth sample_overlay (OtherPayload "a") good_packet true) =
    Ok (UList [PGlobalTime 0; POther "a" [x01]]) /\
  outcome (_ez_unpack_noauth sample_overlay (OtherPayload "a") good_packet false) =
    Ok (UObject (POther "a" [x00])).
Proof.
  destruct (ez_unpack_noauth_shape sample_overlay (OtherPayload "a") good_packet)
    as (Htrue & Hfalse & _).
  split.
  - rewrite (Htrue (PGlobalTime 0) (POther "a" [x01]) eq_refl). reflexivity.
  - rewrite (Hfalse (POther "a" [x00]) [] eq_refl). reflexivity.
Defined.

End PackingSamples.

(** * Further properties *)

(** ** Slices of a packet *)

Section Slices.
Context {A : Type}.

(** [l[:i] + l[i:]] is [l], for every index [i]. *)
Lemma py_slice_split (i : Z) (l : list A) :
  py_slice None (Some i) l ++ py_slice (Some i) None l = l.
Proof.
  unfold py_slice. set (k := clamp_index (Z.of_nat (length l)) i).
  assert (Hk : 0 <= k <= Z.of_nat (length l)).
  { subst k. unfold clamp_index. destruct (i <? 0) eqn:Hi; lia. }
  rewrite Z.sub_0_r. simpl skipn.
  rewrite (firstn_all2 (skipn (Z.to_nat k) l)) by (rewrite length_skipn; lia).
  apply firstn_skipn.
Qed.

(** [l[n:]] drops [n] elements when [n] is not negative. *)
Lemma py_slice_from (n : Z) (l : list A) :
  0 <= n -> py_slice (Some n) None l = skipn (Z.to_nat n) l.
Proof.
  intros Hn. unfold py_slice, clamp_index.
  destruct (Z.ltb_spec n 0) as [?|_]; [lia|].
  rewrite firstn_all2 by (rewrite length_skipn; lia).
  destruct (Z.le_gt_cases n (Z.of_nat (length l))).
  - rewrite Z.min_l by lia. reflexivity.
  - rewrite Z.min_r by lia. rewrite !skipn_all2 by lia. reflexivity.
Qed.

Lemma py_slice_from_short (n : Z) (l : list A) :
  Z.of_nat (length l) <= n -> py_slice (Some n) None l = [].
Proof.
  intros Hn. rewrite py_slice_from by lia. apply skipn_all2. lia.
Qed.

Lemma py_slice_tail_length (n : Z) (l : list A) :
  0 < n ->
  length (py_slice (Some (- n)) None l) = Nat.min (Z.to_nat n) (length l).
Proof.
  intros Hn. unfold py_slice, clamp_index.
  destruct (Z.ltb_spec (- n) 0) as [_|?]; [|lia].
  rewrite length_firstn, length_skipn. lia.
Qed.

End Slices.

(** ** The default branch of the signature check *)

Section DefaultBranch.
Import lazy_community Notions.

Variable ec : ECCrypto.
Variable bb : Bundler.

(** The default branch, spelled out. *)
Lemma verify_signature_default_run (self : Overlay) (auth : AuthHeader)
    (data : bytes) (public_key : PublicKey ec) :
  startswith LibNaCLPK_marker (public_key_bin auth) = false ->
  key_from_public_bin ec (public_key_bin auth) = Ok public_key ->
  let pk := public_key_bin auth in
  let n := get_signature_length ec public_key in
  let signed := py_slice None (Some (- n)) data in
  let signature := py_slice (Some (- n)) None data in
  _verify_signature ec bb self auth data =
    ([call_key_from_public_bin pk; call_get_signature_length pk;
      call_is_valid_signature pk signed signature],
     Ok (is_valid_signature ec public_key signed signature,
         py_slice (Some (23 + 2 + len pk)) (Some (- n)) data)).
Proof.
  intros Hm Hkey pk n signed signature. unfold _verify_signature.
  rewrite Hm. unfold bind, call, ret. rewrite Hkey. reflexivity.
Qed.

(** X1. On the default branch, for a key the backend decodes, the verifier
    is called once, with two byte strings that together are the whole
    packet, whatever signature length the backend reports: no byte of
    the packet is left out of the check.  For a positive signature
    length [n] the signature is the last [n] bytes, or the whole packet
    when it is shorter than that. *)
Theorem verify_signature_covers_packet (self : Overlay) (auth : AuthHeader)
    (data : bytes) (public_key : PublicKey ec) :
  startswith LibNaCLPK_marker (public_key_bin auth) = false ->
  key_from_public_bin ec (public_key_bin auth) = Ok public_key ->
  exists signed signature remainder,
    _verify_signature ec bb self auth data =
      ([call_key_from_public_bin (public_key_bin auth);
        call_get_signature_length (public_key_bin auth);
        call_is_valid_signature (public_key_bin auth) signed signature],
       Ok (is_valid_signature ec public_key signed signature, remainder)) /\
    signed ++ signature = data /\
    (0 < get_signature_length ec public_key ->
     length signature =
       Nat.min (Z.to_nat (get_signature_length ec public_key)) (length data)).
Proof.
  intros Hm Hkey. do 3 eexists. split; [|split].
  - apply (verify_signature_default_run self auth data public_key Hm Hkey).
  - apply py_slice_split.
  - apply py_slice_tail_length.
Qed.

(** X2. On the default branch, for a key the backend decodes and a
    positive signature length [n], the remainder has
    [len(data) - n - (25 + len(public_key_bin))] bytes, none when the
    packet is too short for that (no exception is raised), and a packet
    that is long enough is its first [25 + len(public_key_bin)] bytes,
    then the remainder, then the signature. *)
Theorem verify_signature_packet_parts (self : Overlay) (auth : AuthHeader)
    (data : bytes) (public_key : PublicKey ec) :
  startswith LibNaCLPK_marker (public_key_bin auth) = false ->
  key_from_public_bin ec (public_key_bin auth) = Ok public_key ->
  0 < get_signature_length ec public_key ->
  let n := Z.to_nat (get_signature_length ec public_key) in
  let start := (25 + length (public_key_bin auth))%nat in
  exists valid remainder,
    outcome (_verify_signature ec bb self auth data) = Ok (valid, remainder) /\
    length remainder = (length data - n - start)%nat /\
    ((start + n <= length data)%nat ->
     data = firstn start data ++ remainder ++ skipn (length data - n) data).
Proof.
  intros Hm Hkey Hn n start.
  rewrite (verify_signature_default_run self auth data public_key Hm Hkey).
  unfold outcome; cbn [snd]. do 2 eexists. split; [reflexivity|].
  rewrite py_slice_from_end by (unfold len; lia).
  replace (Z.to_nat (23 + 2 + len (public_key_bin auth))) with start
    by (unfold len; lia).
  fold n. split.
  - rewrite length_firstn, length_skipn. lia.
  - intros Hlen.
    rewrite <- (firstn_skipn start data) at 1. f_equal.
    rewrite <- (firstn_skipn (length data - n - start) (skipn start data)) at 1.
    f_equal. rewrite skipn_skipn. f_equal. lia.
Qed.

End DefaultBranch.

Lemma verify_signature_covers_packet_witness :
  exists signed signature valid remainder,
    Sample.check [x4b] Sample.good_packet =
      ([lazy_community.call_key_from_public_bin [x4b];
        lazy_community.call_get_signature_length [x4b];
        lazy_community.call_is_valid_signature [x4b] signed signature],
       Ok (valid, remainder)) /\
    signed ++ signature = Sample.good_packet /\
    length signature = 2%nat.
Proof.
  destruct (verify_signature_covers_packet
              Sample.sample_eccrypto Sample.sample_bundler Sample.sample_overlay
              (lazy_community.mkAuth [x4b]) Sample.good_packet [x4b]
              eq_refl eq_refl)
    as (signed & signature & remainder & Hrun & Hsplit & Hlen).
  exists signed, signature. eexists. exists remainder.
  split; [exact Hrun|]. split; [exact Hsplit | exact (Hlen eq_refl)].
Defined.

Lemma verify_signature_packet_parts_witness :
  exists valid remainder,
    lazy_community.outcome (Sample.check [x4b] Sample.good_packet) =
      Ok (valid, remainder) /\
    length remainder = 2%nat /\
    Sample.good_packet =
      firstn 26 Sample.good_packet ++ remainder ++ skipn 28 Sample.good_packet.
Proof.
  destruct (verify_signature_packet_parts
              Sample.sample_eccrypto Sample.sample_bundler Sample.sample_overlay
              (lazy_community.mkAuth [x4b]) Sample.good_packet [x4b]
              eq_refl eq_refl eq_refl)
    as (valid & remainder & Hrun & Hlen & Hparts).
  exists valid, remainder.
  split; [exact Hrun|]. split; [exact Hlen|].
  apply Hparts. vm_compute. lia.
Defined.

(** ** The authenticated paths on every input *)

Section Authenticated.
Import lazy_community Notions Scenario.

Variable ec : ECCrypto.
Variable bb : Bundler.

Context {R : Type}.
Variable h : Overlay -> Sender -> list Arg -> result R.
Variable self : Overlay.
Variable source_address : Address.
Variable data : bytes.

Let header_call : Event :=
  call_unpack_to_serializables [BinMemberAuthenticationPayload]
    (py_slice (Some 23) None data).

Lemma bind_raise {A B} (m : M A) (k : A -> M B) (e : Exn) :
  outcome m = Raise e -> bind m k = (trace m, Raise e).
Proof.
  destruct m as [t r]. unfold outcome, trace; cbn [fst snd].
  intros ->. reflexivity.
Qed.

Lemma bind_ok {A B} (m : M A) (k : A -> M B) (a : A) :
  outcome m = Ok a -> bind m k = (trace m ++ trace (k a), outcome (k a)).
Proof.
  destruct m as [t r]. unfold outcome, trace; cbn [fst snd].
  intros ->. unfold bind. destruct (k a). reflexivity.
Qed.

(** The header step in every case. *)
Lemma unpack_auth_cases :
  unpack_auth self data =
  ([header_call],
   match unpack_to_serializables (serializer self)
           [BinMemberAuthenticationPayload] (py_slice (Some 23) None data) with
   | Ok ([PAuth auth], rest) => Ok (auth, rest)
   | Ok ([_], _) => Raise AttributeError
   | Ok _ => Raise ValueError
   | Raise e => Raise e
   end).
Proof.
  unfold unpack_auth, bind, call.
  destruct (unpack_to_serializables _ _ _) as [[objs rest]|e]; [|reflexivity].
  destruct objs as [|[auth|t|c b] [|q objs]]; reflexivity.
Qed.

Lemma ez_unpack_auth_header_raises (e : Exn) (payload_class : PayloadClass) :
  outcome (unpack_auth self data) = Raise e ->
  _ez_unpack_auth ec bb self payload_class data = ([header_call], Raise e).
Proof.
  unfold _ez_unpack_auth. rewrite unpack_auth_cases.
  unfold outcome; cbn [snd]. intros ->. reflexivity.
Qed.

Lemma ez_unpack_auth_check_raises (auth : AuthHeader) (rest : bytes) (e : Exn)
    (payload_class : PayloadClass) :
  unpack_to_serializables (serializer self) [BinMemberAuthenticationPayload]
    (py_slice (Some 23) None data) = Ok ([PAuth auth], rest) ->
  outcome (_verify_signature ec bb self auth data) = Raise e ->
  _ez_unpack_auth ec bb self payload_class data =
    (header_call :: trace (_verify_signature ec bb self auth data), Raise e).
Proof.
  intros Hh Hv. unfold _ez_unpack_auth.
  rewrite (unpack_auth_ok _ _ _ _ Hh). fold header_call.
  rewrite !(bind_ok _ _ (auth, rest)) by reflexivity. cbn [fst snd].
  rewrite !(bind_raise _ _ e Hv). reflexivity.
Qed.

(** When the header step raises, so does each authenticated path, after
    that one call. *)
Lemma header_raises (e : Exn) (payloads : list PayloadClass)
    (payload_class : PayloadClass) :
  outcome (unpack_auth self data) = Raise e ->
  lazy_wrapper ec bb payloads (handler h) self source_address data =
    ([header_call], Raise e) /\
  lazy_wrapper_wd ec bb payloads (handler h) self source_address data =
    ([header_call], Raise e) /\
  _ez_unpack_auth ec bb self payload_class data = ([header_call], Raise e).
Proof.
  unfold lazy_wrapper, lazy_wrapper_wd, _ez_unpack_auth.
  rewrite unpack_auth_cases. unfold outcome; cbn [snd]. intros ->.
  repeat split.
Qed.

(** When the signature check raises, so does each authenticated path,
    after the calls of the check. *)
Lemma check_raises (auth : AuthHeader) (rest : bytes) (e : Exn)
    (payloads : list PayloadClass) (payload_class : PayloadClass) :
  unpack_to_serializables (serializer self) [BinMemberAuthenticationPayload]
    (py_slice (Some 23) None data) = Ok ([PAuth auth], rest) ->
  outcome (_verify_signature ec bb self auth data) = Raise e ->
  let t := header_call :: trace (_verify_signature ec bb self auth data) in
  lazy_wrapper ec bb payloads (handler h) self source_address data = (t, Raise e) /\
  lazy_wrapper_wd ec bb payloads (handler h) self source_address data = (t, Raise e) /\
  _ez_unpack_auth ec bb self payload_class data = (t, Raise e).
Proof.
  intros Hh Hv t. unfold lazy_wrapper, lazy_wrapper_wd, _ez_unpack_auth.
  rewrite (unpack_auth_ok _ _ _ _ Hh). fold header_call.
  rewrite !(bind_ok _ _ (auth, rest)) by reflexivity. cbn [fst snd].
  rewrite !(bind_raise _ _ e Hv). repeat split.
Qed.

(** X3. When the serializer does not return exactly one auth header for
    the bytes after offset 23 (it raises, or returns another number or
    kind of objects), [lazy_wrapper], [lazy_wrapper_wd] and
    [_ez_unpack_auth] all raise after that single call: an exception of
    the serializer is passed on unchanged, no signature backend is
    asked, no payload is deserialized and the handler is not invoked. *)
Theorem malformed_header_stops_unpacking (payloads : list PayloadClass)
    (payload_class : PayloadClass) :
  (forall auth rest,
     unpack_to_serializables (serializer self) [BinMemberAuthenticationPayload]
       (py_slice (Some 23) None data) <> Ok ([PAuth auth], rest)) ->
  exists e,
    lazy_wrapper ec bb payloads (handler h) self source_address data =
      ([call_unpack_to_serializables [BinMemberAuthenticationPayload]
          (py_slice (Some 23) None data)], Raise e) /\
    lazy_wrapper_wd ec bb payloads (handler h) self source_address data =
      ([call_unpack_to_serializables [BinMemberAuthenticationPayload]
          (py_slice (Some 23) None data)], Raise e) /\
    _ez_unpack_auth ec bb self payload_class data =
      ([call_unpack_to_serializables [BinMemberAuthenticationPayload]
          (py_slice (Some 23) None data)], Raise e) /\
    (forall e', unpack_to_serializables (serializer self)
                  [BinMemberAuthenticationPayload]
                  (py_slice (Some 23) None data) = Raise e' -> e = e').
Proof.
  intros Hbad.
  assert (Hout : exists e, outcome (unpack_auth self data) = Raise e /\
            forall e', unpack_to_serializables (serializer self)
                         [BinMemberAuthenticationPayload]
                         (py_slice (Some 23) None data) = Raise e' -> e = e').
  { rewrite unpack_auth_cases. unfold outcome; cbn [snd].
    destruct (unpack_to_serializables _ _ _) as [[objs rest]|e].
    - destruct objs as [|[auth|t|c b] [|q objs]];
        try (eexists; split; [reflexivity | intros e' [=]]).
      exfalso. exact (Hbad auth rest eq_refl).
    - exists e. split; [reflexivity | intros e' [= <-]; reflexivity]. }
  destruct Hout as (e & He & Hsame). exists e.
  destruct (header_raises e payloads payload_class He) as (H1 & H2 & H3).
  repeat split; assumption.
Qed.

(** X4. When the auth header decodes but the default backend cannot
    decode its key, the backend's exception is raised by [lazy_wrapper],
    [lazy_wrapper_wd] and [_ez_unpack_auth] right after the attempt: no
    signature is verified, no payload is deserialized and the handler is
    not invoked. *)
Theorem undecodable_key_stops_unpacking (auth : AuthHeader) (rest : bytes)
    (e : Exn) (payloads : list PayloadClass) (payload_class : PayloadClass) :
  unpack_to_serializables (serializer self) [BinMemberAuthenticationPayload]
    (py_slice (Some 23) None data) = Ok ([PAuth auth], rest) ->
  startswith LibNaCLPK_marker (public_key_bin auth) = false ->
  key_from_public_bin ec (public_key_bin auth) = Raise e ->
  let calls :=
    [call_unpack_to_serializables [BinMemberAuthenticationPayload]
       (py_slice (Some 23) None data);
     call_key_from_public_bin (public_key_bin auth)] in
  lazy_wrapper ec bb payloads (handler h) self source_address data =
    (calls, Raise e) /\
  lazy_wrapper_wd ec bb payloads (handler h) self source_address data =
    (calls, Raise e) /\
  _ez_unpack_auth ec bb self payload_class data = (calls, Raise e).
Proof.
  intros Hh Hm Hkey calls.
  assert (Hv : _verify_signature ec bb self auth data =
               ([call_key_from_public_bin (public_key_bin auth)], Raise e)).
  { unfold _verify_signature. rewrite Hm. unfold bind, call. rewrite Hkey.
    reflexivity. }
  pose proof (check_raises auth rest e payloads payload_class Hh) as Hc.
  rewrite Hv in Hc. exact (Hc eq_refl).
Qed.

(** X5. On every input, each authenticated wrapper invokes the handler at
    most once, and it invokes it only when the auth header was decoded,
    the signature check on that header returned true and the payloads
    were deserialized from the remainder the check returned; the handler
    then gets the [Peer] of the header's key and those payloads. *)
Theorem handler_only_after_valid_signature (payloads : list PayloadClass) :
  let run := lazy_wrapper ec bb payloads (handler h) self source_address data in
  let run_wd := lazy_wrapper_wd ec bb payloads (handler h) self source_address data in
  (handler_calls (trace run) = [] /\ handler_calls (trace run_wd) = []) \/
  exists auth rest remainder unpacked,
    unpack_to_serializables (serializer self) [BinMemberAuthenticationPayload]
      (py_slice (Some 23) None data) = Ok ([PAuth auth], rest) /\
    outcome (_verify_signature ec bb self auth data) = Ok (true, remainder) /\
    ez_unpack_serializables (serializer self) payloads remainder = Ok unpacked /\
    handler_calls (trace run) =
      [call_handler (FromPeer (mkPeer (public_key_bin auth) source_address))
         (List.map APayload unpacked)] /\
    handler_calls (trace run_wd) =
      [call_handler (FromPeer (mkPeer (public_key_bin auth) source_address))
         (List.map APayload unpacked ++ [AData data])].
Proof.
  intros run run_wd. subst run run_wd.
  destruct (outcome (unpack_auth self data)) as [[auth rest]|e] eqn:Hu.
  - assert (Hh : unpack_to_serializables (serializer self)
                   [BinMemberAuthenticationPayload]
                   (py_slice (Some 23) None data) = Ok ([PAuth auth], rest)).
    { revert Hu. rewrite unpack_auth_cases. unfold outcome; cbn [snd].
      destruct (unpack_to_serializables _ _ _) as [[objs r]|e']; [|discriminate].
      destruct objs as [|[a|t|c b] [|q objs]]; try discriminate.
      intros [= -> ->]. reflexivity. }
    destruct (outcome (_verify_signature ec bb self auth data))
      as [[valid remainder]|e] eqn:Hv.
    + rewrite (lazy_wrapper_run ec bb h self payloads source_address data
                 auth rest valid remainder Hh Hv).
      rewrite (lazy_wrapper_wd_run ec bb h self payloads source_address data
                 auth rest valid remainder Hh Hv).
      pose proof (checked_no_handler ec bb self data auth) as Hc.
      set (tv := trace (_verify_signature ec bb self auth data)) in *.
      destruct (ez_unpack_serializables _ _ _) as [unpacked|e] eqn:Hz;
        [destruct valid;
           [destruct (key_from_public_bin ec (public_key_bin auth))|]|];
        unfold trace; cbn [fst];
        rewrite !handler_calls_app, Hc;
        try (left; split; reflexivity).
      right. exists auth, rest, remainder, unpacked. repeat split; assumption.
    + destruct (check_raises auth rest e payloads BinMemberAuthenticationPayload
                  Hh Hv) as (-> & -> & _).
      left. unfold trace; cbn [fst]. unfold handler_calls. simpl.
      split; apply (verify_signature_no_handler ec bb).
  - destruct (header_raises e payloads BinMemberAuthenticationPayload Hu)
      as (-> & -> & _).
    left. split; reflexivity.
Qed.

End Authenticated.

(** ** The four wrappers and the two unpackers side by side *)

Section Variants.
Import lazy_community Notions Scenario.

Variable ec : ECCrypto.
Variable bb : Bundler.

Context {R : Type}.
Variable h : Overlay -> Sender -> list Arg -> result R.
Variable self : Overlay.
Variable source_address : Address.
Variable data : bytes.

Lemma with_data_backend_calls (t : list Event) :
  List.Forall (fun ev => backend_of ev <> None) t ->
  List.map (with_data data) t = t.
Proof.
  induction 1 as [|ev t Hev _ IH]; [reflexivity|].
  simpl. rewrite IH. destruct ev; simpl in *; congruence.
Qed.

Lemma header_decoded (auth : AuthHeader) (rest : bytes) :
  outcome (unpack_auth self data) = Ok (auth, rest) ->
  unpack_to_serializables (serializer self) [BinMemberAuthenticationPayload]
    (py_slice (Some 23) None data) = Ok ([PAuth auth], rest).
Proof.
  rewrite unpack_auth_cases. unfold outcome; cbn [snd].
  destruct (unpack_to_serializables _ _ _) as [[objs r]|e']; [|discriminate].
  destruct objs as [|[a|t|c b] [|q objs]]; try discriminate.
  intros [= -> ->]. reflexivity.
Qed.

(** X6. A raw-passthrough wrapper behaves as the plain wrapper of the same
    kind around a handler that is given [data] as one more, last
    argument: on every input both make the same calls, the handler call
    differing in that argument only, and both have the same outcome.
    This holds for the authenticated pair and for the unsigned pair. *)
Theorem passthrough_adds_last_argument (payloads : list PayloadClass) :
  let plain :=
    lazy_wrapper ec bb payloads (handler (given_data data h))
      self source_address data in
  let plain_unsigned :=
    lazy_wrapper_unsigned payloads (handler (given_data data h))
      self source_address data in
  lazy_wrapper_wd ec bb payloads (handler h) self source_address data =
    (List.map (with_data data) (trace plain), outcome plain) /\
  lazy_wrapper_unsigned_wd payloads (handler h) self source_address data =
    (List.map (with_data data) (trace plain_unsigned), outcome plain_unsigned).
Proof.
  intros plain plain_unsigned. subst plain plain_unsigned. split.
  - destruct (outcome (unpack_auth self data)) as [[auth rest]|e] eqn:Hu.
    + apply header_decoded in Hu.
      destruct (outcome (_verify_signature ec bb self auth data))
        as [[valid remainder]|e] eqn:Hv.
      * rewrite (lazy_wrapper_run ec bb (given_data data h) self payloads
                   source_address data auth rest valid remainder Hu Hv).
        rewrite (lazy_wrapper_wd_run ec bb h self payloads source_address data
                   auth rest valid remainder Hu Hv).
        pose proof (with_data_backend_calls _
                      (verify_signature_calls ec bb self auth data)) as Ht.
        set (tv := trace (_verify_signature ec bb self auth data)) in *.
        destruct (ez_unpack_serializables _ _ _) as [unpacked|e];
          [destruct valid;
             [destruct (key_from_public_bin ec (public_key_bin auth))|]|];
          unfold trace, outcome; cbn [fst snd];
          rewrite map_app; simpl; rewrite Ht; reflexivity.
      * destruct (check_raises ec bb h self source_address data auth rest e
                    payloads BinMemberAuthenticationPayload Hu Hv)
          as (_ & -> & _).
        destruct (check_raises ec bb (given_data data h) self source_address
                    data auth rest e payloads BinMemberAuthenticationPayload
                    Hu Hv) as (-> & _ & _).
        pose proof (with_data_backend_calls _
                      (verify_signature_calls ec bb self auth data)) as Ht.
        set (tv := trace (_verify_signature ec bb self auth data)) in *.
        unfold trace, outcome; cbn [fst snd]. simpl. rewrite Ht.
        reflexivity.
    + destruct (header_raises ec bb h self source_address data e payloads
                  BinMemberAuthenticationPayload Hu) as (_ & -> & _).
      destruct (header_raises ec bb (given_data data h) self source_address
                  data e payloads BinMemberAuthenticationPayload Hu)
        as (-> & _ & _).
      reflexivity.
  - unfold lazy_wrapper_unsigned_wd, lazy_wrapper_unsigned, bind, call, handler.
    destruct (ez_unpack_serializables _ _ _) as [unpacked|e]; reflexivity.
Qed.

(** X7. The unsigned wrappers never ask a signature backend.  They
    deserialize the payloads from the packet without its first 23 bytes;
    when that succeeds the handler is invoked exactly once with the
    source address and the payloads (followed by [data] for the
    raw-passthrough wrapper) and its outcome is the wrapper's; when the
    serializer raises, the handler is not invoked and the serializer's
    exception is the wrapper's. *)
Theorem unsigned_wrappers_only_deserialize (payloads : list PayloadClass) :
  let run := lazy_wrapper_unsigned payloads (handler h) self source_address data in
  let run_wd :=
    lazy_wrapper_unsigned_wd payloads (handler h) self source_address data in
  let who := FromAddress source_address in
  (forall b, uses_backend b (trace run) = false /\
             uses_backend b (trace run_wd) = false) /\
  match ez_unpack_serializables (serializer self) payloads (skipn 23 data) with
  | Ok unpacked =>
      handler_calls (trace run) = [call_handler who (List.map APayload unpacked)] /\
      outcome run = h self who (List.map APayload unpacked) /\
      handler_calls (trace run_wd) =
        [call_handler who (List.map APayload unpacked ++ [AData data])] /\
      outcome run_wd = h self who (List.map APayload unpacked ++ [AData data])
  | Raise e =>
      handler_calls (trace run) = [] /\ outcome run = Raise e /\
      handler_calls (trace run_wd) = [] /\ outcome run_wd = Raise e
  end.
Proof.
  intros run run_wd who. subst run run_wd who.
  unfold lazy_wrapper_unsigned_wd, lazy_wrapper_unsigned, bind, call, handler.
  rewrite (py_slice_from 23 data) by lia. change (Z.to_nat 23) with 23%nat.
  destruct (ez_unpack_serializables _ _ _) as [unpacked|e];
    (split; [intros []; split; reflexivity | repeat split]).
Qed.

(** X8. [_ez_unpack_auth] returns [(auth, dist, payload)] exactly when
    the serializer decoded the auth header [auth], the signature check on
    it returned true, and the serializer returned the two objects [dist]
    and [payload] for [GlobalTimeDistributionPayload] and the payload
    class from the remainder the check returned. *)
Theorem ez_unpack_auth_returns_iff (payload_class : PayloadClass)
    (auth : AuthHeader) (dist payload : Payload) :
  outcome (_ez_unpack_auth ec bb self payload_class data) =
    Ok (auth, dist, payload) <->
  exists rest remainder,
    unpack_to_serializables (serializer self) [BinMemberAuthenticationPayload]
      (py_slice (Some 23) None data) = Ok ([PAuth auth], rest) /\
    outcome (_verify_signature ec bb self auth data) = Ok (true, remainder) /\
    ez_unpack_serializables (serializer self)
      [GlobalTimeDistributionPayload; payload_class] remainder =
      Ok [dist; payload].
Proof.
  split.
  - destruct (outcome (unpack_auth self data)) as [[a rest]|e] eqn:Hu.
    + apply header_decoded in Hu.
      destruct (outcome (_verify_signature ec bb self a data))
        as [[valid remainder]|e] eqn:Hv.
      * rewrite (ez_unpack_auth_run ec bb self data a rest valid remainder
                   Hu Hv payload_class).
        unfold outcome at 1; cbn [snd].
        destruct (ez_unpack_serializables _ _ _) as [[|d [|q [|x u]]]|e] eqn:Hz;
          try discriminate.
        destruct valid; [|discriminate]. intros [= -> -> ->].
        exists rest, remainder. repeat split; assumption.
      * rewrite (ez_unpack_auth_check_raises ec bb self data a rest e
                   payload_class Hu Hv). discriminate.
    + rewrite (ez_unpack_auth_header_raises ec bb self data e payload_class Hu).
      discriminate.
  - intros (rest & remainder & Hu & Hv & Hz).
    rewrite (ez_unpack_auth_run ec bb self data auth rest true remainder
               Hu Hv payload_class).
    unfold outcome; cbn [snd]. rewrite Hz. reflexivity.
Qed.

(** X9. What [_ez_unpack_auth] returns is what [lazy_wrapper], declared
    with [GlobalTimeDistributionPayload] and the same payload class,
    works with: whenever the first returns [(auth, dist, payload)], the
    second makes the same calls, then builds the [Peer] of
    [auth.public_key_bin] and the source address, which is one more
    key decoding by the default backend, and invokes the handler once
    with that [Peer], [dist] and [payload]; when that decoding raises,
    the handler is not invoked and the exception is the wrapper's.  For
    a key without the marker the decoding succeeds. *)
Theorem lazy_wrapper_follows_ez_unpack_auth (payload_class : PayloadClass)
    (auth : AuthHeader) (dist payload : Payload) :
  outcome (_ez_unpack_auth ec bb self payload_class data) =
    Ok (auth, dist, payload) ->
  let who := FromPeer (mkPeer (public_key_bin auth) source_address) in
  let unpacking := trace (_ez_unpack_auth ec bb self payload_class data) in
  lazy_wrapper ec bb [GlobalTimeDistributionPayload; payload_class] (handler h)
    self source_address data =
  match key_from_public_bin ec (public_key_bin auth) with
  | Ok _ =>
      (unpacking ++ [call_key_from_public_bin (public_key_bin auth);
                     call_handler who [APayload dist; APayload payload]],
       h self who [APayload dist; APayload payload])
  | Raise e =>
      (unpacking ++ [call_key_from_public_bin (public_key_bin auth)], Raise e)
  end /\
  (startswith LibNaCLPK_marker (public_key_bin auth) = false ->
   exists public_key,
     key_from_public_bin ec (public_key_bin auth) = Ok public_key).
Proof.
  intros Hret who unpacking. subst who unpacking.
  destruct (outcome (unpack_auth self data)) as [[a rest]|e] eqn:Hu.
  - apply header_decoded in Hu.
    destruct (outcome (_verify_signature ec bb self a data))
      as [[valid remainder]|e] eqn:Hv.
    + revert Hret.
      rewrite (ez_unpack_auth_run ec bb self data a rest valid remainder
                 Hu Hv payload_class).
      rewrite (lazy_wrapper_run ec bb h self
                 [GlobalTimeDistributionPayload; payload_class]
                 source_address data a rest valid remainder Hu Hv).
      unfold outcome at 1; cbn [snd].
      destruct (ez_unpack_serializables _ _ _) as [[|d [|q [|x u]]]|e];
        try discriminate.
      destruct valid; [|discriminate]. intros [= -> -> ->].
      split.
      * set (tv := trace (_verify_signature ec bb self auth data)).
        destruct (key_from_public_bin ec (public_key_bin auth));
          unfold trace; cbn [fst]; rewrite <- app_assoc; reflexivity.
      * apply (returned_check_decoded_key ec bb self data auth true remainder Hv).
    + revert Hret.
      rewrite (ez_unpack_auth_check_raises ec bb self data a rest e
                 payload_class Hu Hv). discriminate.
  - revert Hret.
    rewrite (ez_unpack_auth_header_raises ec bb self data e payload_class Hu).
    discriminate.
Qed.

(** X10. What [_ez_unpack_noauth] returns is what [lazy_wrapper_unsigned]
    hands to the handler.  With [global_time] true and the list [objs]
    returned, the wrapper declared with [GlobalTimeDistributionPayload]
    and the payload class makes the same call and invokes the handler
    with the source address and [objs]; with [global_time] false and the
    object [obj] returned, the wrapper declared with the payload class
    alone invokes the handler with [obj] as its first payload. *)
Theorem lazy_wrapper_unsigned_follows_ez_unpack_noauth
    (payload_class : PayloadClass) :
  let who := FromAddress source_address in
  (forall objs,
     outcome (_ez_unpack_noauth self payload_class data true) = Ok (UList objs) ->
     lazy_wrapper_unsigned [GlobalTimeDistributionPayload; payload_class]
       (handler h) self source_address data =
     (trace (_ez_unpack_noauth self payload_class data true)
        ++ [call_handler who (List.map APayload objs)],
      h self who (List.map APayload objs))) /\
  (forall obj,
     outcome (_ez_unpack_noauth self payload_class data false) = Ok (UObject obj) ->
     exists others,
       lazy_wrapper_unsigned [payload_class] (handler h) self source_address data =
       (trace (_ez_unpack_noauth self payload_class data false)
          ++ [call_handler who (APayload obj :: List.map APayload others)],
        h self who (APayload obj :: List.map APayload others))).
Proof.
  intros who. subst who.
  unfold _ez_unpack_noauth, lazy_wrapper_unsigned, bind, call, ret, raise, handler.
  split.
  - intros objs.
    destruct (ez_unpack_serializables _ _ _) as [unpacked|e];
      unfold outcome, trace; cbn [fst snd]; intros [= <-]. reflexivity.
  - intros obj.
    destruct (ez_unpack_serializables _ _ _) as [[|first others]|e];
      unfold outcome, trace; cbn [fst snd]; intros [= <-].
    exists others. reflexivity.
Qed.

(** X11. A packet of at most 23 bytes raises no error of its own: every
    unpacking path starts by handing the serializer the empty byte
    string. *)
Theorem short_packet_reaches_serializer (payloads : list PayloadClass)
    (payload_class : PayloadClass) (global_time : bool) :
  (length data <= 23)%nat ->
  let header_call :=
    call_unpack_to_serializables [BinMemberAuthenticationPayload] [] in
  (exists later,
     trace (lazy_wrapper ec bb payloads (handler h) self source_address data) =
       header_call :: later) /\
  (exists later,
     trace (lazy_wrapper_wd ec bb payloads (handler h) self source_address data) =
       header_call :: later) /\
  (exists later,
     trace (_ez_unpack_auth ec bb self payload_class data) = header_call :: later) /\
  (exists later,
     trace (lazy_wrapper_unsigned payloads (handler h) self source_address data) =
       call_ez_unpack_serializables payloads [] :: later) /\
  (exists later,
     trace (lazy_wrapper_unsigned_wd payloads (handler h) self source_address data) =
       call_ez_unpack_serializables payloads [] :: later) /\
  trace (_ez_unpack_noauth self payload_class data global_time) =
    [call_ez_unpack_serializables
       (if global_time then [GlobalTimeDistributionPayload; payload_class]
        else [payload_class]) []].
Proof.
  intros Hlen header_call. subst header_call.
  assert (Hs : py_slice (Some 23) None data = []) by (apply py_slice_from_short; lia).
  assert (Hb : forall B (k : AuthHeader * bytes -> M B), exists later,
             trace (bind (unpack_auth self data) k) =
               call_unpack_to_serializables [BinMemberAuthenticationPayload] []
               :: later).
  { intros B k. rewrite unpack_auth_cases, Hs. unfold bind.
    destruct (unpack_to_serializables _ _ _) as [[objs r]|e];
      [destruct objs as [|[a|t|c b] [|q objs]]|];
      try (eexists; reflexivity).
    destruct (k (a, r)). eexists; reflexivity. }
  split; [apply Hb|]. split; [apply Hb|]. split; [apply Hb|].
  unfold lazy_wrapper_unsigned_wd, lazy_wrapper_unsigned, _ez_unpack_noauth.
  rewrite Hs. unfold bind, call, handler, ret, raise.
  split; [|split].
  - destruct (ez_unpack_serializables _ _ _); eexists; reflexivity.
  - destruct (ez_unpack_serializables _ _ _); eexists; reflexivity.
  - destruct (ez_unpack_serializables _ _ _) as [[|first others]|e];
      destruct global_time; reflexivity.
Qed.

End Variants.

(** ** Packing, and packing followed by unpacking *)

Section RoundTrip.
Import lazy_community Notions Scenario.

Variable ec : ECCrypto.
Variable bb : Bundler.
Variable to_pack_list : Payload -> FormatList.

Lemma pack_groups_failing (self : Overlay) (before : list FormatList)
    (blocks : list bytes) (failing : FormatList) (after : list FormatList)
    (e : Exn) :
  packs_to (serializer self) before blocks ->
  pack_multiple (serializer self) failing = Raise e ->
  forall packet,
    pack_groups self (before ++ failing :: after) packet =
    (List.map call_pack_multiple (before ++ [failing]), Raise e).
Proof.
  intros Hp Hf. induction Hp as [|fl block fll blocks [size Hfl] _ IH];
    intros packet; simpl; unfold bind, call.
  - rewrite Hf. reflexivity.
  - rewrite Hfl, IH. reflexivity.
Qed.

(** X12. When the serializer raises on one of the groups, [_ez_pack]
    raises that exception at once: the groups before it have been
    packed, the groups after it are not, and nothing is signed, whether
    [sig] is set or not. *)
Theorem ez_pack_stops_at_failing_group (self : Overlay) (prefix : bytes)
    (msg_num : byte) (before : list FormatList) (blocks : list bytes)
    (failing : FormatList) (after : list FormatList) (e : Exn) (sig : bool) :
  packs_to (serializer self) before blocks ->
  pack_multiple (serializer self) failing = Raise e ->
  _ez_pack ec bb self prefix msg_num (before ++ failing :: after) sig =
    (List.map call_pack_multiple (before ++ [failing]), Raise e).
Proof.
  intros Hp Hf. unfold _ez_pack.
  rewrite (pack_groups_failing self before blocks failing after e Hp Hf).
  reflexivity.
Qed.

(** The three slices the default branch takes of a packet made of a head
    of [start] bytes, a body and a signature. *)
Lemma framing_slices (head body signature : bytes) (start n : Z) :
  len head = start -> len signature = n -> 0 < n ->
  py_slice None (Some (- n)) (head ++ body ++ signature) = head ++ body /\
  py_slice (Some (- n)) None (head ++ body ++ signature) = signature /\
  py_slice (Some start) (Some (- n)) (head ++ body ++ signature) = body.
Proof.
  unfold len. intros Hs Hn Hpos.
  assert (Hlen : length (head ++ body ++ signature) =
                 (length head + length body + length signature)%nat)
    by (rewrite !length_app; lia).
  split; [|split].
  - rewrite py_slice_drop_tail by exact Hpos. rewrite Hlen.
    replace (length head + length body + length signature - Z.to_nat n)%nat
      with (length (head ++ body) + 0)%nat by (rewrite length_app; lia).
    rewrite app_assoc, firstn_app_2. simpl. apply app_nil_r.
  - rewrite py_slice_tail by exact Hpos. rewrite Hlen.
    replace (length head + length body + length signature - Z.to_nat n)%nat
      with (length (head ++ body) + 0)%nat by (rewrite length_app; lia).
    rewrite app_assoc, drop_app_add. reflexivity.
  - rewrite py_slice_from_end by lia. rewrite Hlen.
    replace (Z.to_nat start) with (length head + 0)%nat by lia.
    rewrite drop_app_add. simpl skipn.
    replace (length head + length body + length signature - Z.to_nat n
             - (length head + 0))%nat
      with (length body + 0)%nat by lia.
    change (drop 0 (body ++ signature)) with (body ++ signature).
    rewrite firstn_app_2. simpl. apply app_nil_r.
Qed.

(** X13. Round trip of the framing on the default backend.  Take a sender
    whose key is not of type [LibNaCLSK] and whose public key does not
    carry the marker, a prefix of 22 bytes, and groups the serializer
    packs, the first into a header block of [2 + len(public key)] bytes.
    If the backend decodes the public key and reports the length of the
    signature it made, then the signature check on the packed packet
    asks the backend about exactly the bytes that were signed and that
    signature, and the remainder it returns is exactly the blocks that
    follow the header block. *)
Theorem packed_packet_checks (sender receiver : Overlay) (prefix : bytes)
    (msg_num : byte) (header_group : FormatList) (groups : list FormatList)
    (header_block : bytes) (blocks : list bytes)
    (public_key : PublicKey ec) :
  let pk := public_key_key_to_bin (my_peer sender) in
  let k := key (my_peer sender) in
  let assembled := prefix ++ [msg_num] ++ List.concat (header_block :: blocks) in
  length prefix = 22%nat ->
  packs_to (serializer sender) (header_group :: groups) (header_block :: blocks) ->
  length header_block = (2 + length pk)%nat ->
  key_type k <> LibNaCLSK ->
  startswith LibNaCLPK_marker pk = false ->
  key_from_public_bin ec pk = Ok public_key ->
  get_signature_length ec public_key = len (create_signature ec k assembled) ->
  0 < get_signature_length ec public_key ->
  exists packet,
    outcome (_ez_pack ec bb sender prefix msg_num (header_group :: groups) true) =
      Ok packet /\
    packet = assembled ++ create_signature ec k assembled /\
    outcome (_verify_signature ec bb receiver (mkAuth pk) packet) =
      Ok (is_valid_signature ec public_key assembled
            (create_signature ec k assembled),
          List.concat blocks).
Proof.
  intros pk k assembled Hprefix Hp Hhb Hk Hm Hkey Hn Hpos.
  exists (assembled ++ create_signature ec k assembled).
  split; [|split; [reflexivity|]].
  - rewrite (ez_pack_run ec bb sender prefix msg_num _ _ true Hp).
    unfold outcome; cbn [snd]. fold k.
    destruct (KeyClass_eqb (key_type k) LibNaCLSK) eqn:Heq; [|reflexivity].
    apply KeyClass_eqb_eq in Heq. contradiction.
  - rewrite (verify_signature_default_run ec bb receiver (mkAuth pk) _
               public_key Hm Hkey).
    unfold outcome; cbn [snd public_key_bin].
    set (signature := create_signature ec k assembled) in *.
    set (head := prefix ++ [msg_num] ++ header_block).
    assert (Ha : assembled = head ++ List.concat blocks).
    { subst assembled head. simpl. rewrite <- !app_assoc. reflexivity. }
    rewrite Ha, <- app_assoc.
    destruct (framing_slices head (List.concat blocks) signature
                (23 + 2 + len pk) (get_signature_length ec public_key))
      as (H1 & H2 & H3); [| symmetry; exact Hn | exact Hpos |].
    + subst head. unfold len. rewrite !length_app, Hprefix, Hhb. simpl. lia.
    + rewrite H1, H2, H3. reflexivity.
Qed.

(** X14. Round trip from [ezr_pack] to [lazy_wrapper] on the default
    backend.  Under the conditions of the framing round trip, for a
    signed [ezr_pack] of [payloads] with a prefix of 22 bytes, a
    signature the backend accepts, and a receiving serializer that
    decodes the auth header from the packet after offset 23 and the
    payloads from the concatenated payload blocks: [lazy_wrapper]
    invokes the handler exactly once, with the [Peer] of the sender's
    public key and [payloads] in their order. *)
Theorem packed_packet_dispatches {R : Type}
    (h : Overlay -> Sender -> list Arg -> result R)
    (sender receiver : Overlay) (msg_num : byte) (payloads : list Payload)
    (classes : list PayloadClass) (kwargs : gmap string bool)
    (header_block : bytes) (size : Z) (blocks : list bytes)
    (public_key : PublicKey ec) (source_address : Address) (rest : bytes) :
  let pk := public_key_key_to_bin (my_peer sender) in
  let k := key (my_peer sender) in
  let assembled :=
    _prefix sender ++ [msg_num] ++ List.concat (header_block :: blocks) in
  let signature := create_signature ec k assembled in
  default true (kwargs !! "sig"%string) = true ->
  length (_prefix sender) = 22%nat ->
  pack_multiple (serializer sender) (to_pack_list (PAuth (mkAuth pk))) =
    Ok (header_block, size) ->
  packs_to (serializer sender) (List.map to_pack_list payloads) blocks ->
  length header_block = (2 + length pk)%nat ->
  key_type k <> LibNaCLSK ->
  startswith LibNaCLPK_marker pk = false ->
  key_from_public_bin ec pk = Ok public_key ->
  get_signature_length ec public_key = len signature ->
  0 < get_signature_length ec public_key ->
  is_valid_signature ec public_key assembled signature = true ->
  unpack_to_serializables (serializer receiver) [BinMemberAuthenticationPayload]
    (header_block ++ List.concat blocks ++ signature) =
    Ok ([PAuth (mkAuth pk)], rest) ->
  ez_unpack_serializables (serializer receiver) classes (List.concat blocks) =
    Ok payloads ->
  exists packet,
    outcome (ezr_pack ec bb to_pack_list sender msg_num payloads kwargs) =
      Ok packet /\
    handler_calls
      (trace (lazy_wrapper ec bb classes (handler h) receiver source_address
                packet)) =
      [call_handler (FromPeer (mkPeer pk source_address))
         (List.map APayload payloads)] /\
    outcome (lazy_wrapper ec bb classes (handler h) receiver source_address
               packet) =
      h receiver (FromPeer (mkPeer pk source_address)) (List.map APayload payloads).
Proof.
  intros pk k assembled signature Hsig Hprefix Hh Hp Hhb Hk Hm Hkey Hn Hpos
         Hvalid Hdec Hunp.
  assert (Hgroups : packs_to (serializer sender)
                      (to_pack_list (PAuth (mkAuth pk))
                         :: List.map to_pack_list payloads)
                      (header_block :: blocks))
    by (constructor; [exists size; exact Hh | exact Hp]).
  exists (assembled ++ signature).
  assert (Hpacked : outcome (ezr_pack ec bb to_pack_list sender msg_num payloads
                               kwargs) = Ok (assembled ++ signature)).
  { unfold ezr_pack. rewrite Hsig. fold pk. simpl app.
    rewrite (ez_pack_run ec bb sender _ msg_num _ _ true Hgroups).
    unfold outcome; cbn [snd]. fold k.
    destruct (KeyClass_eqb (key_type k) LibNaCLSK) eqn:Heq; [|reflexivity].
    apply KeyClass_eqb_eq in Heq. contradiction. }
  split; [exact Hpacked|].
  set (head := _prefix sender ++ [msg_num] ++ header_block).
  assert (Ha : assembled = head ++ List.concat blocks).
  { subst assembled head. simpl. rewrite <- !app_assoc. reflexivity. }
  destruct (framing_slices head (List.concat blocks) signature
              (23 + 2 + len pk) (get_signature_length ec public_key))
    as (H1 & H2 & H3); [| symmetry; exact Hn | exact Hpos |].
  { subst head. unfold len. rewrite !length_app, Hprefix, Hhb. simpl. lia. }
  assert (Hafter : py_slice (Some 23) None (assembled ++ signature) =
                   header_block ++ List.concat blocks ++ signature).
  { rewrite py_slice_from by lia. subst assembled. simpl List.concat.
    replace (Z.to_nat 23) with (length (_prefix sender ++ [msg_num]) + 0)%nat
      by (rewrite length_app, Hprefix; reflexivity).
    rewrite <- !app_assoc.
    rewrite (app_assoc (_prefix sender) [msg_num]).
    rewrite drop_app_add. reflexivity. }
  assert (Hcheck : outcome (_verify_signature ec bb receiver (mkAuth pk)
                              (assembled ++ signature)) =
                   Ok (true, List.concat blocks)).
  { rewrite (verify_signature_default_run ec bb receiver (mkAuth pk) _
               public_key Hm Hkey).
    unfold outcome; cbn [snd public_key_bin].
    rewrite Ha, <- app_assoc, H1, H2, H3, <- Ha. fold signature.
    rewrite Hvalid. reflexivity. }
  rewrite <- Hafter in Hdec.
  rewrite (lazy_wrapper_run ec bb h receiver classes source_address
             (assembled ++ signature) (mkAuth pk) rest true
             (List.concat blocks) Hdec Hcheck).
  rewrite Hunp. cbn [public_key_bin]. rewrite Hkey.
  unfold trace, outcome; cbn [fst snd].
  split; [|reflexivity].
  rewrite handler_calls_app.
  pose proof (checked_no_handler ec bb receiver (assembled ++ signature)
                (mkAuth pk)) as Hc.
  unfold trace in Hc. rewrite Hc. reflexivity.
Qed.

(** X15. The sender chooses its backend by the type of its key, the
    receiver by the marker on the public key: with the groups packed,
    signing and checking use the same backend exactly when the key is
    of type [LibNaCLSK] if and only if the public key starts with
    [LibNaCLPK:].  For a key of a class derived from [LibNaCLSK] whose
    public key carries the marker, the packet is signed by the default
    backend and checked by the accelerated one. *)
Theorem sender_and_receiver_backends (sender receiver : Overlay) (prefix : bytes)
    (msg_num : byte) (groups : list FormatList) (blocks : list bytes)
    (data : bytes) :
  packs_to (serializer sender) groups blocks ->
  let pk := public_key_key_to_bin (my_peer sender) in
  let k := key (my_peer sender) in
  let signing := trace (_ez_pack ec bb sender prefix msg_num groups true) in
  let checking := trace (_verify_signature ec bb receiver (mkAuth pk) data) in
  (uses_backend Accelerated signing = uses_backend Accelerated checking <->
     (key_type k = LibNaCLSK <-> exists rest, pk = LibNaCLPK_marker ++ rest)) /\
  (forall name base,
     key_type k = Subclass name base ->
     (exists rest, pk = LibNaCLPK_marker ++ rest) ->
     uses_backend Default signing = true /\
     uses_backend Accelerated signing = false /\
     uses_backend Accelerated checking = true /\
     uses_backend Default checking = false).
Proof.
  intros Hp pk k signing checking.
  assert (Hs : uses_backend Accelerated signing = KeyClass_eqb (key_type k) LibNaCLSK
               /\ uses_backend Default signing =
                  negb (KeyClass_eqb (key_type k) LibNaCLSK)).
  { subst signing. rewrite (ez_pack_run ec bb sender prefix msg_num _ _ true Hp).
    unfold trace; cbn [fst]. fold k.
    rewrite !uses_backend_app, !pack_calls_no_backend.
    destruct (KeyClass_eqb (key_type k) LibNaCLSK); split; reflexivity. }
  assert (Hc : uses_backend Accelerated checking = startswith LibNaCLPK_marker pk
               /\ uses_backend Default checking =
                  negb (startswith LibNaCLPK_marker pk)).
  { subst checking. unfold _verify_signature. cbn [public_key_bin].
    destruct (startswith LibNaCLPK_marker pk); [split; reflexivity|].
    unfold bind, call, ret, trace.
    destruct (key_from_public_bin ec pk); split; reflexivity. }
  destruct Hs as [Hs1 Hs2], Hc as [Hc1 Hc2].
  rewrite Hs1, Hs2, Hc1, Hc2. rewrite <- startswith_prefix, <- KeyClass_eqb_eq.
  split.
  - destruct (KeyClass_eqb (key_type k) LibNaCLSK), (startswith LibNaCLPK_marker pk);
      intuition congruence.
  - intros name base Hsub Hmark.
    assert (Hne : KeyClass_eqb (key_type k) LibNaCLSK = false).
    { destruct (KeyClass_eqb (key_type k) LibNaCLSK) eqn:Heq; [|reflexivity].
      apply KeyClass_eqb_eq in Heq. congruence. }
    apply startswith_prefix in Hmark.
    rewrite Hne, Hmark. repeat split.
Qed.

End RoundTrip.

(** ** Abstract classes of identity_formats.py *)

Section AbstractClasses.
Import identity_formats abstract_classes.

Lemma still_abstract_In (abstract defined : list string) (m : string) :
  List.In m (still_abstract abstract defined) <->
  List.In m abstract /\ ~ List.In m defined.
Proof.
  unfold still_abstract. rewrite List.filter_In, negb_true_iff.
  split; intros [Hin H]; (split; [exact Hin|]).
  - intros Hd. assert (existsb (String.eqb m) defined = true); [|congruence].
    apply existsb_exists. exists m. split; [exact Hd | apply String.eqb_refl].
  - destruct (existsb (String.eqb m) defined) eqn:He; [|reflexivity].
    apply existsb_exists in He as (x & Hx & Heq).
    apply String.eqb_eq in Heq. subst x. contradiction.
Qed.

(** X16. A class derived from [IdentityAlgorithm] can be instantiated
    only if it defines all twelve abstract methods.  The base class
    itself, and any derived class that leaves one of them out, is refused
    with a [TypeError] naming the missing methods, before [__init__]
    runs and so whatever the format name; a class that defines them all
    is constructed by [__init__], which then checks the format name. *)
Theorem abstract_methods_block_instantiation :
  (forall name,
     instantiate [] name = AbstractTypeError IdentityAlgorithm_abstractmethods) /\
  (forall defined name m,
     List.In m IdentityAlgorithm_abstractmethods -> ~ List.In m defined ->
     exists missing,
       instantiate defined name = AbstractTypeError missing /\ List.In m missing) /\
  (forall defined name,
     (forall m, List.In m IdentityAlgorithm_abstractmethods -> List.In m defined) ->
     instantiate defined name =
       match construct name with
       | Ok obj => Instance obj
       | Raise e => InitError e
       end).
Proof.
  split; [|split].
  - intros name. reflexivity.
  - intros defined name m Hm Hd. unfold instantiate.
    assert (Hin : List.In m (still_abstract IdentityAlgorithm_abstractmethods defined))
      by (apply still_abstract_In; split; assumption).
    destruct (still_abstract IdentityAlgorithm_abstractmethods defined) as [|x l];
      [contradiction|].
    eexists. split; [reflexivity | exact Hin].
  - intros defined name Hall. unfold instantiate, construct.
    destruct (still_abstract IdentityAlgorithm_abstractmethods defined)
      as [|x l] eqn:Hs.
    + destruct (__init__ blank name) as [self' [u|e]]; reflexivity.
    + assert (Hx : List.In x (still_abstract IdentityAlgorithm_abstractmethods defined))
        by (rewrite Hs; left; reflexivity).
      apply still_abstract_In in Hx as [Hx Hn]. exfalso. exact (Hn (Hall x Hx)).
Qed.

Lemma abstract_methods_block_instantiation_witness :
  (exists missing,
     instantiate ["attest"; "certainty"]%string "id_metadata" =
       AbstractTypeError missing /\
     List.In "create_challenges"%string missing) /\
  instantiate IdentityAlgorithm_abstractmethods "id_metadata" =
    Instance {| id_format := Some "id_metadata"%string |} /\
  instantiate IdentityAlgorithm_abstractmethods "nope" =
    InitError (RuntimeError "Tried to initialize with illegal identity format").
Proof.
  destruct abstract_methods_block_instantiation as (_ & Hmiss & Hall).
  split; [|split].
  - apply (Hmiss ["attest"; "certainty"]%string "id_metadata"%string
             "create_challenges"%string).
    + simpl. tauto.
    + simpl. intros [H|[H|[]]]; discriminate H.
  - exact (Hall IdentityAlgorithm_abstractmethods "id_metadata"%string
             (fun m H => H)).
  - exact (Hall IdentityAlgorithm_abstractmethods "nope"%string (fun m H => H)).
Defined.

End AbstractClasses.

(** ** The further properties on the sample packets *)

Section MoreSamples.
Import lazy_community Notions Sample Scenario.

Lemma malformed_header_stops_unpacking_witness :
  lazy_wrapper sample_eccrypto sample_bundler two_payloads (handler count_args)
    sample_overlay sender bare_packet =
    ([call_unpack_to_serializables [BinMemberAuthenticationPayload] []],
     Raise (ExternalError "PackError")) /\
  _ez_unpack_auth sample_eccrypto sample_bundler sample_overlay
    (OtherPayload "a") bare_packet =
    ([call_unpack_to_serializables [BinMemberAuthenticationPayload] []],
     Raise (ExternalError "PackError")).
Proof.
  destruct (malformed_header_stops_unpacking sample_eccrypto sample_bundler
              count_args sample_overlay sender bare_packet two_payloads
              (OtherPayload "a"))
    as (e & H1 & _ & H3 & Hsame).
  - intros auth rest H. vm_compute in H. discriminate H.
  - rewrite (Hsame (ExternalError "PackError") eq_refl) in H1, H3.
    split; [exact H1 | exact H3].
Defined.

Lemma undecodable_key_stops_unpacking_witness :
  lazy_wrapper sample_eccrypto sample_bundler two_payloads (handler count_args)
    sample_overlay sender empty_key_packet =
    ([call_unpack_to_serializables [BinMemberAuthenticationPayload]
        [x00; x00; x07; x08; xaa; xbb];
      call_key_from_public_bin []],
     Raise (ExternalError "KeyDecodingError")).
Proof.
  exact (proj1 (undecodable_key_stops_unpacking sample_eccrypto sample_bundler
                  count_args sample_overlay sender empty_key_packet
                  (mkAuth []) [x07; x08; xaa; xbb]
                  (ExternalError "KeyDecodingError") two_payloads
                  (OtherPayload "a") eq_refl eq_refl eq_refl)).
Defined.

Lemma ez_unpack_auth_returns_iff_witness :
  outcome (_ez_unpack_auth sample_eccrypto sample_bundler sample_overlay
             (OtherPayload "a") good_packet) =
    Ok (mkAuth [x4b], PGlobalTime 7, POther "a" [x08]).
Proof.
  apply (proj2 (ez_unpack_auth_returns_iff sample_eccrypto sample_bundler
                  sample_overlay good_packet (OtherPayload "a")
                  (mkAuth [x4b]) (PGlobalTime 7) (POther "a" [x08]))).
  exists [x07; x08; xaa; xbb], [x07; x08].
  split; [reflexivity|]. split; reflexivity.
Defined.

Lemma lazy_wrapper_follows_ez_unpack_auth_witness :
  outcome (lazy_wrapper sample_eccrypto sample_bundler
             [GlobalTimeDistributionPayload; OtherPayload "a"]
             (handler count_args) sample_overlay sender good_packet) =
    Ok 2%nat /\
  handler_calls
    (trace (lazy_wrapper sample_eccrypto sample_bundler
              [GlobalTimeDistributionPayload; OtherPayload "a"]
              (handler count_args) sample_overlay sender good_packet)) =
    [call_handler who [APayload (PGlobalTime 7); APayload (POther "a" [x08])]].
Proof.
  destruct (lazy_wrapper_follows_ez_unpack_auth sample_eccrypto sample_bundler
              count_args sample_overlay sender good_packet (OtherPayload "a")
              (mkAuth [x4b]) (PGlobalTime 7) (POther "a" [x08]) eq_refl)
    as [Hrun _].
  rewrite Hrun. split; reflexivity.
Defined.

Lemma lazy_wrapper_unsigned_follows_ez_unpack_noauth_witness :
  outcome (lazy_wrapper_unsigned [GlobalTimeDistributionPayload; OtherPayload "a"]
             (handler count_args) sample_overlay sender good_packet) = Ok 2%nat /\
  exists others,
    outcome (lazy_wrapper_unsigned [OtherPayload "a"] (handler count_args)
               sample_overlay sender good_packet) =
      Ok (S (length (List.map APayload others))).
Proof.
  destruct (lazy_wrapper_unsigned_follows_ez_unpack_noauth count_args
              sample_overlay sender good_packet (OtherPayload "a"))
    as [Hlist Hone].
  split.
  - rewrite (Hlist [PGlobalTime 0; POther "a" [x01]] eq_refl). reflexivity.
  - destruct (Hone (POther "a" [x00]) eq_refl) as [others Hrun].
    exists others. rewrite Hrun. reflexivity.
Defined.

Lemma short_packet_reaches_serializer_witness :
  trace (_ez_unpack_noauth sample_overlay (OtherPayload "a") bare_packet true) =
    [call_ez_unpack_serializables
       [GlobalTimeDistributionPayload; OtherPayload "a"] []] /\
  exists later,
    trace (lazy_wrapper sample_eccrypto sample_bundler two_payloads
             (handler count_args) sample_overlay sender bare_packet) =
      call_unpack_to_serializables [BinMemberAuthenticationPayload] [] :: later.
Proof.
  assert (Hlen : (length bare_packet <= 23)%nat) by (vm_compute; lia).
  destruct (short_packet_reaches_serializer sample_eccrypto sample_bundler
              count_args sample_overlay sender bare_packet two_payloads
              (OtherPayload "a") true Hlen)
    as (Hw & _ & _ & _ & _ & Hn).
  split; [exact Hn | exact Hw].
Defined.

Lemma ez_pack_stops_at_failing_group_witness :
  _ez_pack sample_eccrypto sample_bundler strict_overlay [x10] x01
    ([[("raw"%string, [VBytes [x07]])]] ++ [] :: [[("raw"%string, [VBytes [x08]])]])
    true =
    ([call_pack_multiple [("raw"%string, [VBytes [x07]])]; call_pack_multiple []],
     Raise (ExternalError "PackError")).
Proof.
  apply (ez_pack_stops_at_failing_group sample_eccrypto sample_bundler
           strict_overlay [x10] x01 [[("raw"%string, [VBytes [x07]])]] [[x07]]
           [] [[("raw"%string, [VBytes [x08]])]] (ExternalError "PackError") true).
  - repeat constructor. exists 1. reflexivity.
  - reflexivity.
Defined.

Lemma sent_packs_to :
  packs_to sample_serializer (List.map sample_to_pack_list sent) [[x07]; [x08]].
Proof. repeat constructor; eexists; reflexivity. Defined.

Lemma packed_packet_checks_witness :
  exists packet,
    outcome (_ez_pack sample_eccrypto sample_bundler sample_overlay
               (repeat x00 22) x01
               (sample_to_pack_list (PAuth (mkAuth [x4b]))
                  :: List.map sample_to_pack_list sent) true) = Ok packet /\
    packet = good_packet /\
    outcome (_verify_signature sample_eccrypto sample_bundler sample_overlay
               (mkAuth [x4b]) packet) = Ok (true, [x07; x08]).
Proof.
  apply (packed_packet_checks sample_eccrypto sample_bundler sample_overlay
           sample_overlay (repeat x00 22) x01
           (sample_to_pack_list (PAuth (mkAuth [x4b])))
           (List.map sample_to_pack_list sent) [x00; x01; x4b] [[x07]; [x08]]
           [x4b]).
  - reflexivity.
  - constructor; [exists 3; reflexivity | exact sent_packs_to].
  - reflexivity.
  - simpl. discriminate.
  - reflexivity.
  - reflexivity.
  - reflexivity.
  - reflexivity.
Defined.

Lemma packed_packet_dispatches_witness :
  exists packet,
    outcome (ezr_pack sample_eccrypto sample_bundler sample_to_pack_list
               sample_overlay x01 sent ∅) = Ok packet /\
    handler_calls
      (trace (lazy_wrapper sample_eccrypto sample_bundler two_payloads
                (handler count_args) sample_overlay sender packet)) =
      [call_handler who (List.map APayload sent)] /\
    outcome (lazy_wrapper sample_eccrypto sample_bundler two_payloads
               (handler count_args) sample_overlay sender packet) = Ok 2%nat.
Proof.
  apply (packed_packet_dispatches sample_eccrypto sample_bundler
           sample_to_pack_list count_args sample_overlay sample_overlay x01
           sent two_payloads ∅ [x00; x01; x4b] 3 [[x07]; [x08]] [x4b] sender
           [x07; x08; xaa; xbb]).
  - reflexivity.
  - reflexivity.
  - reflexivity.
  - exact sent_packs_to.
  - reflexivity.
  - simpl. discriminate.
  - reflexivity.
  - reflexivity.
  - reflexivity.
  - reflexivity.
  - reflexivity.
  - reflexivity.
  - reflexivity.
Defined.

Lemma sender_and_receiver_backends_witness :
  issubclass (key_type (key (my_peer derived_overlay))) LibNaCLSK = true /\
  uses_backend Default
    (trace (_ez_pack sample_eccrypto sample_bundler derived_overlay [x10] x01
              two_groups true)) = true /\
  uses_backend Accelerated
    (trace (_ez_pack sample_eccrypto sample_bundler derived_overlay [x10] x01
              two_groups true)) = false /\
  uses_backend Accelerated
    (trace (_verify_signature sample_eccrypto sample_bundler sample_overlay
              (mkAuth nacl_key_bin) nacl_packet)) = true /\
  uses_backend Default
    (trace (_verify_signature sample_eccrypto sample_bundler sample_overlay
              (mkAuth nacl_key_bin) nacl_packet)) = false.
Proof.
  split; [reflexivity|].
  apply (proj2 (sender_and_receiver_backends sample_eccrypto sample_bundler
                  derived_overlay sample_overlay [x10] x01 two_groups two_blocks
                  nacl_packet sample_packs_to)
           "MySK"%string LibNaCLSK eq_refl).
  exists [x4b]. reflexivity.
Defined.

End MoreSamples.

(** ** Unsigned packets *)

Section UnsignedRoundTrip.
Import lazy_community Notions Sample Scenario.

Variable ec : ECCrypto.
Variable bb : Bundler.
Variable to_pack_list : Payload -> FormatList.

(** X17. Round trip of an unsigned packet.  [ezr_pack] called with
    [sig=False] packs the payload groups only: no auth header, no call to
    a signature backend, and the packet is the prefix, the message id and
    the payload blocks.  With a prefix of 22 bytes, [lazy_wrapper_unsigned]
    hands the receiving serializer exactly the concatenated payload
    blocks, and when it decodes [payloads] from them the handler is
    invoked once with the source address and [payloads]. *)
Theorem unsigned_packet_dispatches {R : Type}
    (h : Overlay -> Sender -> list Arg -> result R)
    (sender receiver : Overlay) (msg_num : byte) (payloads : list Payload)
    (classes : list PayloadClass) (kwargs : gmap string bool)
    (blocks : list bytes) (source_address : Address) :
  kwargs !! "sig"%string = Some false ->
  length (_prefix sender) = 22%nat ->
  packs_to (serializer sender) (List.map to_pack_list payloads) blocks ->
  ez_unpack_serializables (serializer receiver) classes (List.concat blocks) =
    Ok payloads ->
  let packet := _prefix sender ++ [msg_num] ++ List.concat blocks in
  ezr_pack ec bb to_pack_list sender msg_num payloads kwargs =
    (List.map call_pack_multiple (List.map to_pack_list payloads), Ok packet) /\
  lazy_wrapper_unsigned classes (handler h) receiver source_address packet =
    ([call_ez_unpack_serializables classes (List.concat blocks);
      call_handler (FromAddress source_address) (List.map APayload payloads)],
     h receiver (FromAddress source_address) (List.map APayload payloads)).
Proof.
  intros Hsig Hprefix Hp Hunp packet. split.
  - unfold ezr_pack. rewrite Hsig. simpl.
    rewrite (ez_pack_run ec bb sender _ msg_num _ _ false Hp).
    rewrite app_nil_r. reflexivity.
  - unfold lazy_wrapper_unsigned.
    assert (Hrest : py_slice (Some 23) None packet = List.concat blocks).
    { rewrite py_slice_from by lia. subst packet.
      replace (Z.to_nat 23) with (length (_prefix sender ++ [msg_num]) + 0)%nat
        by (rewrite length_app, Hprefix; reflexivity).
      rewrite app_assoc, drop_app_add. reflexivity. }
    rewrite Hrest. unfold bind, call, handler. rewrite Hunp. reflexivity.
Qed.

End UnsignedRoundTrip.

Lemma unsigned_packet_dispatches_witness :
  lazy_community.outcome
    (lazy_community.ezr_pack Sample.sample_eccrypto Sample.sample_bundler
       Sample.sample_to_pack_list Sample.sample_overlay x01 Scenario.sent
       (<["sig"%string := false]> ∅)) =
    Ok (repeat x00 22 ++ [x01] ++ [x07; x08]) /\
  lazy_community.outcome
    (lazy_community.lazy_wrapper_unsigned Sample.two_payloads
       (lazy_community.handler Sample.count_args) Sample.sample_overlay
       Sample.sender (repeat x00 22 ++ [x01] ++ [x07; x08])) = Ok 2%nat.
Proof.
  assert (Hsig : (<["sig"%string := false]> ∅ : gmap string bool) !! "sig"%string
                 = Some false) by (vm_compute; reflexivity).
  destruct (unsigned_packet_dispatches Sample.sample_eccrypto
              Sample.sample_bundler Sample.sample_to_pack_list
              Sample.count_args Sample.sample_overlay Sample.sample_overlay
              x01 Scenario.sent Sample.two_payloads
              (<["sig"%string := false]> ∅) [[x07]; [x08]] Sample.sender
              Hsig eq_refl sent_packs_to eq_refl)
    as [Hpack Hrun].
  split.
  - rewrite Hpack. reflexivity.
  - exact (f_equal snd Hrun).
Defined.
